(** * Pre-flight validation of Terraform plans: [validate_deployment.py]

    A shallow embedding of the script: the JSON values it reads, the Python
    operations it applies to them (subscripting, [dict.get], [str.replace],
    truthiness, [set()], [str()] and [json.dumps]), the template synthesis
    [generate_arm_template], the validation call [run_arm_validate] against
    an explicit model of the HTTP transport, and the module-level loop that
    accumulates [errors] and prints the verdict. *)

From Stdlib Require Import List String Ascii ZArith Bool Lia.
From Stdlib Require Import DecimalString.
Import ListNotations.
Open Scope list_scope.
Open Scope string_scope.
Set Warnings "-register-all".

(** ** Values

    What [json.load] returns and what the script builds. A Python [dict]
    keeps insertion order and has one binding per key; it is an association
    list here, looked up from the front. A float is carried by its Python
    [repr]: the script does no arithmetic on it, it only tests, prints and
    serialises it. A character of a [string] stands for a code point below
    256. *)
Inductive json : Type :=
| JNull
| JBool (b : bool)
| JInt (n : Z)
| JFloat (repr : string)
| JStr (s : string)
| JArr (items : list json)
| JObj (fields : list (string * json)).

Definition dict := list (string * json).

(** ** Exceptions

    One constructor per exception the script can meet. [ValueError] is the
    one the script raises itself, with its message; the decoding error of
    [resp.json()], a subclass of [ValueError] in Python, is kept apart from
    it, and so is whatever the world raises ([External]). *)
Inductive exn : Type :=
| KeyError (key : string)
| TypeError
| AttributeError
| ValueError (msg : string)
| IndexError
| JSONDecodeError
| External (what : string).

Inductive result (A : Type) : Type :=
| Ok (a : A)
| Raise (e : exn).
Arguments Ok {A} a.
Arguments Raise {A} e.

Definition bind {A B} (m : result A) (k : A -> result B) : result B :=
  match m with
  | Ok a => k a
  | Raise e => Raise e
  end.

Declare Scope py_scope.
Delimit Scope py_scope with py.
Notation "x <- m ;; k" := (bind m (fun x => k))
  (at level 61, m at next level, right associativity) : py_scope.
Open Scope py_scope.

(** ** Python operations on values *)

Fixpoint dict_get (k : string) (d : dict) : option json :=
  match d with
  | [] => None
  | (k', v) :: d' => if String.eqb k k' then Some v else dict_get k d'
  end.

(** [d[k] = v] on a dict: an existing key keeps its place. *)
Fixpoint dict_set (k : string) (v : json) (d : dict) : dict :=
  match d with
  | [] => [(k, v)]
  | (k', v') :: d' =>
      if String.eqb k k' then (k, v) :: d' else (k', v') :: dict_set k v d'
  end.

Definition keys (d : dict) : list string := map fst d.

(** [v[k]] with a string key. *)
Definition subscript (v : json) (k : string) : result json :=
  match v with
  | JObj d =>
      match dict_get k d with
      | Some x => Ok x
      | None => Raise (KeyError k)
      end
  | _ => Raise TypeError
  end.

(** [v.get(k, default)]. *)
Definition get_default (v : json) (k : string) (default : json) : result json :=
  match v with
  | JObj d =>
      match dict_get k d with
      | Some x => Ok x
      | None => Ok default
      end
  | _ => Raise AttributeError
  end.

(** [v.get(k)]. *)
Definition get (v : json) (k : string) : result json := get_default v k JNull.

(** [s.replace(c, by)] for a one-character pattern [c]. *)
Fixpoint replace (c : ascii) (by_ : string) (s : string) : string :=
  match s with
  | EmptyString => EmptyString
  | String a s' =>
      if Ascii.eqb a c then by_ ++ replace c by_ s'
      else String a (replace c by_ s')
  end.

(** [v.replace(c, by)]: only [str] has the method. *)
Definition str_replace (v : json) (c : ascii) (by_ : string) : result json :=
  match v with
  | JStr s => Ok (JStr (replace c by_ s))
  | _ => Raise AttributeError
  end.

(** Truth value of a value, as [if], [or] and [not] test it. *)
Definition truthy (v : json) : bool :=
  match v with
  | JNull => false
  | JBool b => b
  | JInt n => negb (Z.eqb n 0)
  | JFloat r => negb (String.eqb r "0.0" || String.eqb r "-0.0")
  | JStr s => negb (String.eqb s "")
  | JArr l => match l with [] => false | _ => true end
  | JObj d => match d with [] => false | _ => true end
  end.

(** [a or b]. *)
Definition py_or (a b : json) : json := if truthy a then a else b.

Definition hashable (v : json) : bool :=
  match v with
  | JArr _ | JObj _ => false
  | _ => true
  end.

(** The elements [set(v)] is built from, in iteration order: the items of a
    list, the keys of a dict, the characters of a string. *)
Fixpoint chars (s : string) : list json :=
  match s with
  | EmptyString => []
  | String a s' => JStr (String a EmptyString) :: chars s'
  end.

Definition iterate (v : json) : result (list json) :=
  match v with
  | JArr l => Ok l
  | JObj d => Ok (map JStr (keys d))
  | JStr s => Ok (chars s)
  | _ => Raise TypeError
  end.

Definition py_set (v : json) : result (list json) :=
  l <- iterate v ;;
  if forallb hashable l then Ok l else Raise TypeError.

(** [v == s] for a string [s]. *)
Definition eq_str (v : json) (s : string) : bool :=
  match v with
  | JStr s' => String.eqb s' s
  | _ => false
  end.

(** [v in l] for a list of strings [l]. *)
Definition py_in (v : json) (l : list string) : bool :=
  existsb (eq_str v) l.

(** [bool(s.intersection(t))] for a set of strings [t]. *)
Definition intersects (s : list json) (t : list string) : bool :=
  existsb (fun v => py_in v t) s.

(** ** Text of values: [str()], [repr()] and [json.dumps(_, indent=2)] *)

Definition nl : string := String (ascii_of_nat 10) EmptyString.

Definition decimal (n : Z) : string := NilZero.string_of_int (Z.to_int n).

Definition hex_digit (n : nat) : ascii :=
  match n with
  | 0%nat => "0" | 1%nat => "1" | 2 => "2" | 3 => "3" | 4 => "4" | 5 => "5"
  | 6 => "6" | 7 => "7" | 8 => "8" | 9 => "9" | 10 => "a" | 11 => "b"
  | 12 => "c" | 13 => "d" | 14 => "e" | _ => "f"
  end%char.

Definition hex2 (a : ascii) : string :=
  let n := nat_of_ascii a in
  String (hex_digit (n / 16)) (String (hex_digit (n mod 16)) EmptyString).

Fixpoint contains (c : ascii) (s : string) : bool :=
  match s with
  | EmptyString => false
  | String a s' => Ascii.eqb a c || contains c s'
  end.

Definition printable (a : ascii) : bool :=
  let n := nat_of_ascii a in
  ((32 <=? n) && (n <? 127) || (161 <=? n) && negb (n =? 173))%nat.

Definition squote : ascii := ascii_of_nat 39.
Definition dquote : ascii := ascii_of_nat 34.
Definition backslash : ascii := ascii_of_nat 92.

Definition repr_char (quote a : ascii) : string :=
  let n := nat_of_ascii a in
  if Ascii.eqb a backslash then String backslash (String backslash EmptyString)
  else if Ascii.eqb a quote then String backslash (String quote EmptyString)
  else if (n =? 9)%nat then String backslash "t"
  else if (n =? 10)%nat then String backslash "n"
  else if (n =? 13)%nat then String backslash "r"
  else if printable a then String a EmptyString
  else String backslash ("x" ++ hex2 a).

Fixpoint repr_chars (quote : ascii) (s : string) : string :=
  match s with
  | EmptyString => EmptyString
  | String a s' => repr_char quote a ++ repr_chars quote s'
  end.

(** [repr(s)] of a [str]: single quotes unless the text has one and no
    double quote. *)
Definition repr_str (s : string) : string :=
  let quote := if contains squote s && negb (contains dquote s)
               then dquote else squote in
  String quote (repr_chars quote s ++ String quote EmptyString).

Fixpoint py_repr (v : json) : string :=
  match v with
  | JNull => "None"
  | JBool true => "True"
  | JBool false => "False"
  | JInt n => decimal n
  | JFloat r => r
  | JStr s => repr_str s
  | JArr l =>
      "[" ++ (fix items (l : list json) : string :=
                match l with
                | [] => ""
                | x :: l' =>
                    match l' with
                    | [] => py_repr x
                    | _ => py_repr x ++ ", " ++ items l'
                    end
                end) l ++ "]"
  | JObj d =>
      "{" ++ (fix items (d : list (string * json)) : string :=
                match d with
                | [] => ""
                | (k, x) :: d' =>
                    match d' with
                    | [] => repr_str k ++ ": " ++ py_repr x
                    | _ => repr_str k ++ ": " ++ py_repr x ++ ", " ++ items d'
                    end
                end) d ++ "}"
  end.

(** [str(v)], which an f-string applies to each value it interpolates. *)
Definition py_str (v : json) : string :=
  match v with
  | JStr s => s
  | _ => py_repr v
  end.

Definition dumps_char (a : ascii) : string :=
  let n := nat_of_ascii a in
  if Ascii.eqb a dquote then String backslash (String dquote EmptyString)
  else if Ascii.eqb a backslash then String backslash (String backslash EmptyString)
  else if (n =? 10)%nat then String backslash "n"
  else if (n =? 13)%nat then String backslash "r"
  else if (n =? 9)%nat then String backslash "t"
  else if (n =? 12)%nat then String backslash "f"
  else if (n =? 8)%nat then String backslash "b"
  else if ((32 <=? n) && (n <? 127))%nat then String a EmptyString
  else String backslash ("u00" ++ hex2 a).

Fixpoint dumps_chars (s : string) : string :=
  match s with
  | EmptyString => EmptyString
  | String a s' => dumps_char a ++ dumps_chars s'
  end.

Definition dumps_str (s : string) : string :=
  String dquote (dumps_chars s ++ String dquote EmptyString).

Definition dumps_float (r : string) : string :=
  if String.eqb r "nan" then "NaN"
  else if String.eqb r "inf" then "Infinity"
  else if String.eqb r "-inf" then "-Infinity"
  else r.

Fixpoint spaces (n : nat) : string :=
  match n with
  | O => EmptyString
  | S n' => String " " (spaces n')
  end.

(** The line break json.dumps puts before an item at nesting depth [lvl]
    when [indent=2]. *)
Definition newline_indent (lvl : nat) : string := nl ++ spaces (2 * lvl).

Fixpoint dumps_at (lvl : nat) (v : json) : string :=
  match v with
  | JNull => "null"
  | JBool true => "true"
  | JBool false => "false"
  | JInt n => decimal n
  | JFloat r => dumps_float r
  | JStr s => dumps_str s
  | JArr [] => "[]"
  | JArr l =>
      "[" ++ newline_indent (S lvl)
          ++ (fix items (l : list json) : string :=
                match l with
                | [] => ""
                | x :: l' =>
                    match l' with
                    | [] => dumps_at (S lvl) x
                    | _ => dumps_at (S lvl) x ++ "," ++ newline_indent (S lvl)
                                              ++ items l'
                    end
                end) l
          ++ newline_indent lvl ++ "]"
  | JObj [] => "{}"
  | JObj d =>
      "{" ++ newline_indent (S lvl)
          ++ (fix items (d : list (string * json)) : string :=
                match d with
                | [] => ""
                | (k, x) :: d' =>
                    match d' with
                    | [] => dumps_str k ++ ": " ++ dumps_at (S lvl) x
                    | _ => dumps_str k ++ ": " ++ dumps_at (S lvl) x ++ ","
                             ++ newline_indent (S lvl) ++ items d'
                    end
                end) d
          ++ newline_indent lvl ++ "}"
  end.

(** [json.dumps(v, indent=2)]. *)
Definition json_dumps (v : json) : string := dumps_at 0 v.

(** [v[0]]. *)
Definition first_item (v : json) : result json :=
  match v with
  | JArr (x :: _) => Ok x
  | JArr [] => Raise IndexError
  | JStr (String a _) => Ok (JStr (String a EmptyString))
  | JStr EmptyString => Raise IndexError
  | JObj _ => Raise (KeyError "0")
  | _ => Raise TypeError
  end.

(** ** Configuration *)

Definition HIGH_RISK_RESOURCES : list string :=
  ["azurerm_firewall";
   "azurerm_application_gateway";
   "azurerm_lb";
   "azurerm_bastion_host"].

Definition VALID_ACTIONS : list string := ["create"; "update"].

(** ** Template synthesis *)

Definition schema_url : string :=
  "https://schema.management.azure.com/schemas/2019-04-01/deploymentTemplate.json#".

(** [generate_arm_template(resource)]. The script builds [template] around
    the dict [res] and then assigns into [res] through the alias
    [template["resources"][0]]; here [res] is completed first and the
    template is wrapped around it, which is the same object graph at
    [return]. *)
Definition generate_arm_template (resource : json) : result json :=
  res_type <- subscript resource "type" ;;
  address <- subscript resource "address" ;;
  n1 <- str_replace address "." "-" ;;
  n2 <- str_replace n1 "[" "-" ;;
  res_name <- str_replace n2 "]" "" ;;
  change <- subscript resource "change" ;;
  after <- subscript change "after" ;;
  location <- get_default after "location" (JStr "eastus") ;;
  let res : dict :=
    [("type", JNull);
     ("apiVersion", JStr "2022-08-01");
     ("name", res_name);
     ("location", location)] in
  res <-
    (if eq_str res_type "azurerm_firewall" then
       let res := dict_set "type" (JStr "Microsoft.Network/azureFirewalls") res in
       change <- subscript resource "change" ;;
       after <- subscript change "after" ;;
       sku <- get_default after "sku_name" (JStr "AZFW_VNet") ;;
       Ok (dict_set "sku" (JObj [("name", sku); ("tier", JStr "Standard")]) res)
     else if eq_str res_type "azurerm_application_gateway" then
       let res := dict_set "type" (JStr "Microsoft.Network/applicationGateways") res in
       change <- subscript resource "change" ;;
       after <- subscript change "after" ;;
       sku_name <- get_default after "sku_name" (JStr "WAF_v2") ;;
       Ok (dict_set "sku" (JObj [("name", sku_name); ("tier", JStr "WAF")]) res)
     else if eq_str res_type "azurerm_lb" then
       let res := dict_set "type" (JStr "Microsoft.Network/loadBalancers") res in
       change <- subscript resource "change" ;;
       after <- subscript change "after" ;;
       sku_name <- get_default after "sku" (JStr "Standard") ;;
       Ok (dict_set "sku" (JObj [("name", sku_name)]) res)
     else if eq_str res_type "azurerm_bastion_host" then
       Ok (dict_set "type" (JStr "Microsoft.Network/bastionHosts") res)
     else
       Raise (ValueError ("Unknown resource type " ++ py_str res_type))) ;;
  Ok (JObj [("$schema", JStr schema_url);
            ("contentVersion", JStr "1.0.0.0");
            ("resources", JArr [JObj res])]).

(** [template["resources"][0]]. *)
Definition resource_of (template : json) : result json :=
  rs <- subscript template "resources" ;;
  first_item rs.

(** ** The validation call

    The script reaches Azure through [DefaultAzureCredential], [uuid.uuid4]
    and [requests.post]. They are the [world] the run happens in; each is
    asked with the number of requests posted so far, so that answers may
    differ from one call to the next. *)

Record request : Type := {
  req_url : string;
  req_headers : list (string * string);
  req_body : json
}.

(** What [requests.post] followed by [resp.json()] gives: the call raises,
    or there is a response with a status code and a body, [None] when the
    body is not JSON. What the world raises is kept apart from what the
    script raises: it becomes an [External] exception. *)
Inductive response : Type :=
| PostRaises (what : string)
| Response (status_code : Z) (payload : option json).

Inductive token_answer : Type :=
| Token (token : string)
| NoToken (what : string).

Record world : Type := {
  get_token : nat -> token_answer;
  uuid4 : nat -> string;
  post : nat -> request -> response
}.

(** The variables the script mutates and the requests it has posted, each
    with the answer it got. *)
Record state : Type := {
  errors : list string;
  calls : list (request * response)
}.

Definition M (A : Type) : Type := state -> state * result A.

Definition ret {A} (a : A) : M A := fun st => (st, Ok a).

Definition lift {A} (r : result A) : M A := fun st => (st, r).

Definition bindM {A B} (m : M A) (k : A -> M B) : M B :=
  fun st =>
    match m st with
    | (st', Ok a) => k a st'
    | (st', Raise e) => (st', Raise e)
    end.

Notation "x <~ m ;; k" := (bindM m (fun x => k))
  (at level 61, m at next level, right associativity) : py_scope.

Definition acquire_token (w : world) : M string :=
  fun st =>
    match get_token w (List.length (calls st)) with
    | Token token => (st, Ok token)
    | NoToken what => (st, Raise (External what))
    end.

Definition fresh_uuid (w : world) : M string :=
  fun st => (st, Ok (uuid4 w (List.length (calls st)))).

Definition do_post (w : world) (req : request) : M response :=
  fun st =>
    let resp := post w (List.length (calls st)) req in
    ({| errors := errors st; calls := (calls st ++ [(req, resp)])%list |}, Ok resp).

Definition append_error (e : string) : M unit :=
  fun st => ({| errors := (errors st ++ [e])%list; calls := calls st |}, Ok tt).

(** The request of lines 114 to 133: URL, headers and body. *)
Definition validate_request (token uuid subscription_id resource_group : string)
    (template : json) : request :=
  let deployment_name := "preflight-" ++ uuid in
  {| req_url :=
       "https://management.azure.com/subscriptions/" ++ subscription_id
       ++ "/resourceGroups/" ++ resource_group
       ++ "/providers/Microsoft.Resources/deployments/" ++ deployment_name
       ++ "/validate?api-version=2021-04-01";
     req_headers :=
       [("Authorization", "Bearer " ++ token);
        ("Content-Type", "application/json")];
     req_body :=
       JObj [("properties",
              JObj [("mode", JStr "Incremental");
                    ("template", template);
                    ("parameters", JObj [])])] |}.

(** Lines 136 to 143: from the response to the returned pair. *)
Definition read_response (resp : response) : result (bool * string) :=
  match resp with
  | PostRaises what => Raise (External what)
  | Response status_code None => Raise JSONDecodeError
  | Response status_code (Some payload) =>
      if (status_code =? 200)%Z then Ok (true, "Validation succeeded")
      else
        error <- get_default payload "error" payload ;;
        Ok (false, json_dumps error)
  end.

(** [run_arm_validate(subscription_id, resource_group, location, template)].
    [location] is a parameter the body never reads. *)
Definition run_arm_validate (w : world) (subscription_id resource_group : string)
    (location : json) (template : json) : M (bool * string) :=
  token <~ acquire_token w ;;
  uuid <~ fresh_uuid w ;;
  resp <~ do_post w (validate_request token uuid subscription_id resource_group template) ;;
  lift (read_response resp).

(** ** The run *)

(** The text appended to [errors] for a resource whose validation failed. *)
Definition failure_block (address location sku zones : json) (msg : string)
  : string :=
  py_str address ++ " failed validation" ++ nl
  ++ "  Location : " ++ py_str location ++ nl
  ++ "  SKU      : " ++ py_str sku ++ nl
  ++ "  Zones    : " ++ (if truthy zones then py_str zones else "none") ++ nl
  ++ "  Error    : " ++ msg ++ nl.

Definition failed_header : string :=
  "Pre-flight validation failed for the following resources:".

Definition passed_line : string :=
  "Pre-flight validation passed for all high-risk resources!".

Definition not_found_line : string :=
  "Terraform plan JSON not found. Run `terraform show -json tfplan.binary > tfplan.json` first.".

(** What a finished process leaves behind: the lines printed on standard
    output, the exit status, the exception that ended it when one did, and
    the final values of [errors] and of the requests posted. *)
Record outcome : Type := {
  stdout : list string;
  exit_code : Z;
  uncaught : option exn;
  failures : list string;
  validations : list (request * response)
}.

Section Run.

(** The loop reads the module constant [HIGH_RISK_RESOURCES]. It is a
    variable of this section so that the loop can also be studied under
    another configuration; the script is the instance [preflight] below. *)
Variable high_risk : list string.
Variable w : world.
Variable subscription_id : string.

(** The test of the loop's [if], with the assignment to [actions] that
    precedes it. *)
Definition in_scope (resource : json) : result bool :=
  change <- subscript resource "change" ;;
  acts <- get_default change "actions" (JArr []) ;;
  actions <- py_set acts ;;
  res_type <- subscript resource "type" ;;
  Ok (py_in res_type high_risk && intersects actions VALID_ACTIONS).

(** [sku = after.get("sku_name") or after.get("sku") or "unknown"]. *)
Definition sku_of (after : json) : result json :=
  a <- get after "sku_name" ;;
  if truthy a then Ok a
  else
    b <- get after "sku" ;;
    Ok (py_or b (JStr "unknown")).

(** The body of the [for] loop. *)
Definition step (resource : json) : M unit :=
  selected <~ lift (in_scope resource) ;;
  if selected then
    template <~ lift (generate_arm_template resource) ;;
    location <~ lift (res <- resource_of template ;;
                      subscript res "location") ;;
    after <~ lift (change <- subscript resource "change" ;;
                   get_default change "after" (JObj [])) ;;
    zones <~ lift (get_default after "zones" (JArr [])) ;;
    sku <~ lift (sku_of after) ;;
    verdict <~ run_arm_validate w subscription_id "preflight-rg" location template ;;
    let '(success, msg) := verdict in
    if negb success then
      address <~ lift (subscript resource "address") ;;
      append_error (failure_block address location sku zones msg)
    else ret tt
  else ret tt.

Fixpoint for_each (l : list json) : M unit :=
  match l with
  | [] => ret tt
  | resource :: l' => _ <~ step resource ;; for_each l'
  end.

(** [plan.get("resource_changes", [])], as the [for] statement iterates it. *)
Definition resource_changes (plan : json) : result (list json) :=
  rc <- get_default plan "resource_changes" (JArr []) ;;
  iterate rc.

Definition initial : state := {| errors := []; calls := [] |}.

(** The script from [errors = []] to its end. An exception nobody catches
    ends the process with status 1 and prints nothing on standard output. *)
Definition run (plan : json) : outcome :=
  match (rs <~ lift (resource_changes plan) ;; for_each rs) initial with
  | (st, Raise e) =>
      {| stdout := []; exit_code := 1; uncaught := Some e;
         failures := errors st; validations := calls st |}
  | (st, Ok _) =>
      match errors st with
      | _ :: _ =>
          {| stdout := failed_header :: errors st; exit_code := 1;
             uncaught := None;
             failures := errors st; validations := calls st |}
      | [] =>
          {| stdout := [passed_line]; exit_code := 0; uncaught := None;
             failures := errors st; validations := calls st |}
      end
  end.

End Run.

(** The script's loop, under the script's configuration. *)
Definition preflight : world -> string -> json -> outcome :=
  run HIGH_RISK_RESOURCES.

(** The whole script. [tfplan] is the parsed content of [tfPlan.json], [None]
    when the file does not exist; [subscription] is what the interactive
    [select_subscription()] returns or raises. *)
Definition script (w : world) (tfplan : option json)
    (subscription : result string) : outcome :=
  match tfplan with
  | None =>
      {| stdout := [not_found_line]; exit_code := 1; uncaught := None;
         failures := []; validations := [] |}
  | Some plan =>
      match subscription with
      | Raise e =>
          {| stdout := []; exit_code := 1; uncaught := Some e;
             failures := []; validations := [] |}
      | Ok subscription_id => preflight w subscription_id plan
      end
  end.

(** ** Sample data *)

Definition record (type address : string) (actions : list string) (after : json)
  : json :=
  JObj [("address", JStr address);
        ("type", JStr type);
        ("change", JObj [("actions", JArr (map JStr actions)); ("after", after)])].

Definition plan_of (records : list json) : json :=
  JObj [("format_version", JStr "1.2"); ("resource_changes", JArr records)].

Definition firewall_hub : json :=
  record "azurerm_firewall" "module.hub.azurerm_firewall.fw[0]" ["create"]
    (JObj [("location", JStr "westus"); ("sku_name", JStr "AZFW_Hub")]).

Definition bastion_without_location : json :=
  record "azurerm_bastion_host" "azurerm_bastion_host.jump" ["update"]
    (JObj [("name", JStr "jump")]).

Definition lb_delete : json :=
  record "azurerm_lb" "azurerm_lb.front" ["delete"] JNull.

Definition firewall_after_null : json :=
  record "azurerm_firewall" "azurerm_firewall.fw" ["create"] JNull.

Definition firewall_without_after : json :=
  JObj [("address", JStr "azurerm_firewall.fw");
        ("type", JStr "azurerm_firewall");
        ("change", JObj [("actions", JArr [JStr "create"])])].

Definition public_ip : json :=
  record "azurerm_public_ip" "azurerm_public_ip.pip" ["create"]
    (JObj [("location", JStr "westus")]).

(** An answer of the management API to a caller it does not authorize. *)
Definition denied : json :=
  JObj [("error",
         JObj [("code", JStr "AuthorizationFailed");
               ("message", JStr "The client is not authorized.")])].

Definition is_ValueError (e : exn) : bool :=
  match e with
  | ValueError _ => true
  | _ => false
  end.

(** An answer of the management API that rejects a template. *)
Definition sku_not_available : json :=
  JObj [("error", JObj [("code", JStr "SkuNotAvailable")])].

(** A configuration that names a type [generate_arm_template] has no branch
    for. *)
Definition with_public_ip : list string :=
  ["azurerm_firewall"; "azurerm_public_ip"].

(** The template [generate_arm_template] returns for [firewall_hub]. *)
Definition firewall_hub_template : json :=
  JObj [("$schema", JStr schema_url);
        ("contentVersion", JStr "1.0.0.0");
        ("resources",
         JArr [JObj [("type", JStr "Microsoft.Network/azureFirewalls");
                     ("apiVersion", JStr "2022-08-01");
                     ("name", JStr "module-hub-azurerm_firewall-fw-0");
                     ("location", JStr "westus");
                     ("sku", JObj [("name", JStr "AZFW_Hub");
                                   ("tier", JStr "Standard")])]])].

(** A world whose every validation request is answered with the same
    status and body. *)
Definition constant_world (status_code : Z) (payload : json) : world :=
  {| get_token := fun _ => Token "token";
     uuid4 := fun _ => "00000000-0000-4000-8000-000000000000";
     post := fun _ _ => Response status_code (Some payload) |}.

(** ** The resource-kind rules, as a table

    The [if]/[elif] chain of [generate_arm_template] read as data: for each
    resource type it tests, the provider type it writes, the attribute of
    [after] it copies into [sku.name] with the default it uses, and the tier
    it adds. [generate_arm_template_table] below proves that the function
    computes what the table says. *)
Record kind_rule : Type := {
  provider_type : string;
  sku_source : option (string * string);
  sku_tier : option string
}.

Definition rule_of (res_type : string) : option kind_rule :=
  if String.eqb res_type "azurerm_firewall" then
    Some {| provider_type := "Microsoft.Network/azureFirewalls";
            sku_source := Some ("sku_name", "AZFW_VNet");
            sku_tier := Some "Standard" |}
  else if String.eqb res_type "azurerm_application_gateway" then
    Some {| provider_type := "Microsoft.Network/applicationGateways";
            sku_source := Some ("sku_name", "WAF_v2");
            sku_tier := Some "WAF" |}
  else if String.eqb res_type "azurerm_lb" then
    Some {| provider_type := "Microsoft.Network/loadBalancers";
            sku_source := Some ("sku", "Standard");
            sku_tier := None |}
  else if String.eqb res_type "azurerm_bastion_host" then
    Some {| provider_type := "Microsoft.Network/bastionHosts";
            sku_source := None;
            sku_tier := None |}
  else None.

Definition or_default (v : option json) (default : string) : json :=
  match v with
  | Some x => x
  | None => JStr default
  end.

Definition resource_name (address : string) : string :=
  replace "]" "" (replace "[" "-" (replace "." "-" address)).

Definition sku_fields (rule : kind_rule) (after : dict) : dict :=
  match sku_source rule with
  | None => []
  | Some (attribute, default) =>
      [("sku",
        JObj (("name", or_default (dict_get attribute after) default)
              :: match sku_tier rule with
                 | Some tier => [("tier", JStr tier)]
                 | None => []
                 end))]
  end.

Definition descriptor_resource (rule : kind_rule) (address : string)
    (after : dict) : dict :=
  ([("type", JStr (provider_type rule));
    ("apiVersion", JStr "2022-08-01");
    ("name", JStr (resource_name address));
    ("location", or_default (dict_get "location" after) "eastus")]
   ++ sku_fields rule after)%list.

Definition descriptor (rule : kind_rule) (address : string) (after : dict)
  : json :=
  JObj [("$schema", JStr schema_url);
        ("contentVersion", JStr "1.0.0.0");
        ("resources", JArr [JObj (descriptor_resource rule address after)])].

(** The attribute names a rule allows in the resource and in its [sku]. *)
Definition resource_attributes (rule : kind_rule) : list string :=
  (["type"; "apiVersion"; "name"; "location"]
   ++ match sku_source rule with Some _ => ["sku"] | None => [] end)%list.

Definition sku_attributes (rule : kind_rule) : list string :=
  match sku_source rule with
  | None => []
  | Some _ => "name" :: match sku_tier rule with Some _ => ["tier"] | None => [] end
  end.

(** ** Accounting of failures

    A posted request counts as rejected when [run_arm_validate] returns
    [False] for its answer. [reported] ties one entry of [errors] to one
    rejected request: the entry is the block of a record of the plan that the
    loop selected, whose template is the one the request carries, printed
    with that record's address, location, SKU and zones and with the message
    read from the answer. *)
Definition rejected (c : request * response) : bool :=
  match read_response (snd c) with
  | Ok (false, _) => true
  | _ => false
  end.

Definition reported (high_risk : list string) (subscription_id : string)
    (records : list json) (entry : string) (c : request * response) : Prop :=
  exists resource template address res location after zones sku msg token uuid,
    In resource records /\
    in_scope high_risk resource = Ok true /\
    generate_arm_template resource = Ok template /\
    fst c = validate_request token uuid subscription_id "preflight-rg" template /\
    read_response (snd c) = Ok (false, msg) /\
    subscript resource "address" = Ok address /\
    resource_of template = Ok res /\
    subscript res "location" = Ok location /\
    (change <- subscript resource "change" ;;
     get_default change "after" (JObj [])) = Ok after /\
    get_default after "zones" (JArr []) = Ok zones /\
    sku_of after = Ok sku /\
    entry = failure_block address location sku zones msg.

(** ** Choosing the subscription

    [select_subscription()] asks for a token, fetches the subscriptions with
    [requests.get], prints them, reads a line with [input] and converts it
    with [int]. The [console] is what it talks to: it answers the token
    request, the GET (given the URL and the headers), and the prompt;
    [int_max_str_digits] is the interpreter's limit on the number of digits
    [int] accepts, [0] when there is none. *)

Inductive get_answer : Type :=
| GetRaises (what : string)
| GetResponse (status_code : Z) (payload : option json).

Inductive input_answer : Type :=
| Typed (line : string)
| NoInput (what : string).

Record console : Type := {
  credential : token_answer;
  list_subscriptions : string -> list (string * string) -> get_answer;
  read_line : string -> input_answer;
  int_max_str_digits : nat
}.

(** The function raises [RuntimeError] itself; every other exception comes
    from an operation on the data or from the console. *)
Inductive raised : Type :=
| RuntimeError (msg : string)
| Propagated (e : exn).

Inductive selection : Type :=
| Selected (subscription_id : json)
| Aborted (e : raised).

(** The characters [str.strip()] removes, among the code points below 256. *)
Definition is_space (a : ascii) : bool :=
  let n := nat_of_ascii a in
  ((9 <=? n) && (n <=? 13) || (28 <=? n) && (n <=? 32)
   || (n =? 133) || (n =? 160))%nat.

Fixpoint lstrip (s : string) : string :=
  match s with
  | EmptyString => EmptyString
  | String a s' => if is_space a then lstrip s' else s
  end.

Fixpoint rstrip (s : string) : string :=
  match s with
  | EmptyString => EmptyString
  | String a s' =>
      match rstrip s' with
      | EmptyString => if is_space a then EmptyString else String a EmptyString
      | rest => String a rest
      end
  end.

(** [s.strip()]. *)
Definition strip (s : string) : string := rstrip (lstrip s).

Definition is_digit (a : ascii) : bool :=
  let n := nat_of_ascii a in ((48 <=? n) && (n <=? 57))%nat.

Definition digit_value (a : ascii) : Z := Z.of_nat (nat_of_ascii a - 48).

Definition underscore : ascii := ascii_of_nat 95.

(** The digits of a decimal literal as [int] reads them: one underscore is
    allowed between two digits, nowhere else. *)
Fixpoint digits_value (acc : Z) (after_digit : bool) (s : string) : option Z :=
  match s with
  | EmptyString => if after_digit then Some acc else None
  | String a s' =>
      if is_digit a then digits_value (10 * acc + digit_value a) true s'
      else if Ascii.eqb a underscore then
        if after_digit then digits_value acc false s' else None
      else None
  end.

Fixpoint count_digits (s : string) : nat :=
  match s with
  | EmptyString => 0
  | String a s' => ((if is_digit a then 1 else 0) + count_digits s')%nat
  end.

(** [int(s)] for a string without surrounding white space: [None] stands
    for [ValueError]. *)
Definition parse_int (max_digits : nat) (s : string) : option Z :=
  let '(negative, body) :=
    match s with
    | String a s' =>
        if Ascii.eqb a (ascii_of_nat 45) then (true, s')
        else if Ascii.eqb a (ascii_of_nat 43) then (false, s')
        else (false, s)
    | EmptyString => (false, s)
    end in
  if (negb (max_digits =? 0) && (max_digits <? count_digits body))%nat then None
  else
    match digits_value 0 false body with
    | Some n => Some (if negative then (- n)%Z else n)
    | None => None
    end.

(** [len(v)]. *)
Definition py_len (v : json) : result Z :=
  match v with
  | JArr l => Ok (Z.of_nat (List.length l))
  | JObj d => Ok (Z.of_nat (List.length d))
  | JStr s => Ok (Z.of_nat (String.length s))
  | _ => Raise TypeError
  end.

(** [v[i]] with an integer [i]; a negative [i] counts from the end. *)
Definition item_at (v : json) (i : Z) : result json :=
  match v with
  | JArr l =>
      let n := Z.of_nat (List.length l) in
      let j := if (i <? 0)%Z then (i + n)%Z else i in
      if ((j <? 0) || (n <=? j))%Z then Raise IndexError
      else match nth_error l (Z.to_nat j) with
           | Some x => Ok x
           | None => Raise IndexError
           end
  | JStr s =>
      let n := Z.of_nat (String.length s) in
      let j := if (i <? 0)%Z then (i + n)%Z else i in
      if ((j <? 0) || (n <=? j))%Z then Raise IndexError
      else match String.get (Z.to_nat j) s with
           | Some a => Ok (JStr (String a EmptyString))
           | None => Raise IndexError
           end
  | JObj _ => Raise (KeyError (decimal i))
  | _ => Raise TypeError
  end.

Definition subscriptions_url : string :=
  "https://management.azure.com/subscriptions?api-version=2020-01-01".

Definition available_header : string := "Available subscriptions:".

Definition no_subscriptions : string :=
  "No subscriptions found for the current credentials.".

Definition invalid_selection : string := "Invalid subscription selection.".

(** The line printed for the entry numbered [idx]. *)
Definition subscription_line (idx : Z) (sub : json) : result string :=
  name <- subscript sub "displayName" ;;
  id <- subscript sub "subscriptionId" ;;
  Ok (decimal idx ++ ". " ++ py_str name ++ " (" ++ py_str id ++ ")").

(** The [for] loop over [enumerate(subscriptions, 1)]: the lines printed,
    and the exception when building a line raises. *)
Fixpoint print_entries (idx : Z) (items : list json) : list string * result unit :=
  match items with
  | [] => ([], Ok tt)
  | sub :: rest =>
      match subscription_line idx sub with
      | Raise e => ([], Raise e)
      | Ok line =>
          let '(lines, r) := print_entries (idx + 1) rest in
          (line :: lines, r)
      end
  end.

Definition selection_prompt (n : Z) : string :=
  "Select a subscription [1-" ++ decimal n ++ "]: ".

(** Lines 95 to 103: from the line typed to the value returned. *)
Definition choose (max_digits : nat) (subscriptions : json) (n : Z)
    (line : string) : selection :=
  let choice := strip line in
  match parse_int max_digits choice with
  | None => Aborted (RuntimeError invalid_selection)
  | Some k =>
      let choice_idx := (k - 1)%Z in
      if ((choice_idx <? 0) || (n <=? choice_idx))%Z then
        Aborted (RuntimeError invalid_selection)
      else
        match (sub <- item_at subscriptions choice_idx ;;
               subscript sub "subscriptionId") with
        | Ok id => Selected id
        | Raise e => Aborted (Propagated e)
        end
  end.

(** [select_subscription()]: the lines it prints and what it returns or
    raises. [raise_for_status()] raises for a status from 400 to 599. *)
Definition select_subscription (c : console) : list string * selection :=
  match credential c with
  | NoToken what => ([], Aborted (Propagated (External what)))
  | Token token =>
      match list_subscriptions c subscriptions_url
              [("Authorization", "Bearer " ++ token)] with
      | GetRaises what => ([], Aborted (Propagated (External what)))
      | GetResponse status_code payload =>
          if ((400 <=? status_code) && (status_code <? 600))%Z then
            ([], Aborted (Propagated (External "HTTPError")))
          else
            match payload with
            | None => ([], Aborted (Propagated JSONDecodeError))
            | Some body =>
                match get_default body "value" (JArr []) with
                | Raise e => ([], Aborted (Propagated e))
                | Ok subscriptions =>
                    if negb (truthy subscriptions) then
                      ([], Aborted (RuntimeError no_subscriptions))
                    else
                      match iterate subscriptions with
                      | Raise e => ([available_header], Aborted (Propagated e))
                      | Ok items =>
                          match print_entries 1 items with
                          | (lines, Raise e) =>
                              (available_header :: lines, Aborted (Propagated e))
                          | (lines, Ok _) =>
                              (available_header :: lines,
                               match py_len subscriptions with
                               | Raise e => Aborted (Propagated e)
                               | Ok n =>
                                   match read_line c (selection_prompt n) with
                                   | NoInput what =>
                                       Aborted (Propagated (External what))
                                   | Typed line =>
                                       choose (int_max_str_digits c)
                                         subscriptions n line
                                   end
                               end)
                          end
                      end
                end
            end
      end
  end.

(** ** The process

    The script from its first line to its last: the check that the plan file
    is there, the choice of the subscription, the loop and the verdict. *)
Record finished : Type := {
  printed : list string;
  status : Z;
  posted : list (request * response)
}.

Definition main (c : console) (w : world) (tfplan : option json) : finished :=
  match tfplan with
  | None => {| printed := [not_found_line]; status := 1; posted := [] |}
  | Some plan =>
      match select_subscription c with
      | (lines, Aborted _) => {| printed := lines; status := 1; posted := [] |}
      | (lines, Selected subscription_id) =>
          let o := preflight w (py_str subscription_id) plan in
          {| printed := (lines ++ stdout o)%list;
             status := exit_code o;
             posted := validations o |}
      end
  end.

(** ** Views of a run used in the statements *)

(** The loop's test, read as a yes or no. *)
Definition selected (high_risk : list string) (resource : json) : bool :=
  match in_scope high_risk resource with
  | Ok true => true
  | _ => false
  end.

(** The template a posted request carries. *)
Definition posted_template (c : request * response) : result json :=
  properties <- subscript (req_body (fst c)) "properties" ;;
  subscript properties "template".

Definition answered_200 (c : request * response) : bool :=
  match snd c with
  | Response status_code (Some _) => (status_code =? 200)%Z
  | _ => false
  end.

(** The requests of a run, counted from [k]: each is the validation request
    of some template for the given subscription, in the resource group
    [preflight-rg], named with the identifier the world gave for its rank. *)
Fixpoint numbered (w : world) (subscription_id : string) (k : nat)
    (cs : list (request * response)) : Prop :=
  match cs with
  | [] => True
  | c :: cs' =>
      (exists token template,
          fst c = validate_request token (uuid4 w k) subscription_id
                    "preflight-rg" template) /\
      numbered w subscription_id (S k) cs'
  end.

(** A world that gives a different identifier at every rank. *)
Definition tally_world (status_code : Z) (payload : json) : world :=
  {| get_token := fun _ => Token "token";
     uuid4 := fun n => spaces n;
     post := fun _ _ => Response status_code (Some payload) |}.

(** [subsequence a b]: [a] is [b] with some elements left out, the others
    in their order. *)
Inductive subsequence {A : Type} : list A -> list A -> Prop :=
| subsequence_nil : subsequence [] []
| subsequence_skip (x : A) (a b : list A) :
    subsequence a b -> subsequence a (x :: b)
| subsequence_keep (x : A) (a b : list A) :
    subsequence a b -> subsequence (x :: a) (x :: b).

(** A world that answers the first [k] requests with the same status and
    body, and whose every later request raises. *)
Definition cut_world (k : nat) (status_code : Z) (payload : json) : world :=
  {| get_token := fun _ => Token "token";
     uuid4 := fun _ => "00000000-0000-4000-8000-000000000000";
     post := fun n _ =>
       if (n <? k)%nat then Response status_code (Some payload)
       else PostRaises "ConnectionError" |}.

(** A record as Terraform writes it: a string type and address, a list of
    action names, and a mapping [after] whenever an action is one the loop
    validates. *)
Definition well_formed (resource : json) : Prop :=
  exists res_type address change acts,
    subscript resource "type" = Ok (JStr res_type) /\
    subscript resource "address" = Ok (JStr address) /\
    subscript resource "change" = Ok change /\
    get_default change "actions" (JArr []) = Ok (JArr (map JStr acts)) /\
    ((exists a, In a acts /\ In a VALID_ACTIONS) ->
     exists fields, subscript change "after" = Ok (JObj fields)).

(** A world that always hands out a token and always answers with a JSON
    object. *)
Definition responsive (w : world) : Prop :=
  forall n,
    (exists token, get_token w n = Token token) /\
    (forall req, exists status_code fields,
        post w n req = Response status_code (Some (JObj fields))).

Definition two_subscriptions : json :=
  JObj [("value",
         JArr [JObj [("displayName", JStr "Development");
                     ("subscriptionId", JStr "sub-dev")];
               JObj [("displayName", JStr "Production");
                     ("subscriptionId", JStr "sub-prod")]])].

(** A console that lists [body] and types [line]. *)
Definition console_typing (body : json) (line : string) : console :=
  {| credential := Token "token";
     list_subscriptions := fun _ _ => GetResponse 200 (Some body);
     read_line := fun _ => Typed line;
     int_max_str_digits := 4300 |}.

(** * Properties *)

(** ** The error monad *)

Lemma bind_Ok {A B} (m : result A) (k : A -> result B) (b : B) :
  bind m k = Ok b -> exists a, m = Ok a /\ k a = Ok b.
Proof.
  destruct m as [a | e]; simpl; intros H; [eauto | discriminate].
Qed.

Lemma subscript_Ok (v : json) (k : string) (x : json) :
  subscript v k = Ok x -> exists d, v = JObj d /\ dict_get k d = Some x.
Proof.
  destruct v; simpl; try discriminate.
  destruct (dict_get k fields) eqn:E; intros H; inversion H; subst; eauto.
Qed.

Lemma str_replace_Ok (v : json) (c : ascii) (by_ : string) (x : json) :
  str_replace v c by_ = Ok x -> exists s, v = JStr s /\ x = JStr (replace c by_ s).
Proof.
  destruct v; simpl; try discriminate. intros H; inversion H; eauto.
Qed.

Lemma get_default_Ok (v : json) (k : string) (default x : json) :
  get_default v k default = Ok x ->
  exists d, v = JObj d /\
            x = match dict_get k d with Some y => y | None => default end.
Proof.
  destruct v; simpl; try discriminate.
  intros H. exists fields. split; [reflexivity |].
  destruct (dict_get k fields); inversion H; reflexivity.
Qed.

(** ** Synthesis follows the table *)

Lemma generate_arm_template_table (resource change : json)
    (res_type address : string) (after : dict) :
  subscript resource "type" = Ok (JStr res_type) ->
  subscript resource "address" = Ok (JStr address) ->
  subscript resource "change" = Ok change ->
  subscript change "after" = Ok (JObj after) ->
  generate_arm_template resource =
  match rule_of res_type with
  | Some rule => Ok (descriptor rule address after)
  | None => Raise (ValueError ("Unknown resource type " ++ res_type))
  end.
Proof.
  intros Ht Ha Hc Hf.
  unfold generate_arm_template, rule_of.
  rewrite Ht, Ha; simpl. rewrite Hc; simpl. rewrite Hf; simpl.
  unfold descriptor, descriptor_resource, sku_fields, or_default, resource_name.
  destruct (String.eqb res_type "azurerm_firewall"); simpl.
  { destruct (dict_get "location" after), (dict_get "sku_name" after); reflexivity. }
  destruct (String.eqb res_type "azurerm_application_gateway"); simpl.
  { destruct (dict_get "location" after), (dict_get "sku_name" after); reflexivity. }
  destruct (String.eqb res_type "azurerm_lb"); simpl.
  { destruct (dict_get "location" after), (dict_get "sku" after); reflexivity. }
  destruct (String.eqb res_type "azurerm_bastion_host"); simpl.
  { destruct (dict_get "location" after); reflexivity. }
  destruct (dict_get "location" after); reflexivity.
Qed.

Lemma generate_arm_template_Ok (resource t : json) :
  generate_arm_template resource = Ok t ->
  exists res_type address change after rule,
    subscript resource "type" = Ok (JStr res_type) /\
    subscript resource "address" = Ok (JStr address) /\
    subscript resource "change" = Ok change /\
    subscript change "after" = Ok (JObj after) /\
    rule_of res_type = Some rule /\
    t = descriptor rule address after.
Proof.
  intros H. pose proof H as H0. unfold generate_arm_template in H0.
  apply bind_Ok in H0 as (res_type & Ht & H0).
  apply bind_Ok in H0 as (address & Ha & H0).
  apply bind_Ok in H0 as (n1 & H1 & H0).
  apply bind_Ok in H0 as (n2 & _ & H0).
  apply bind_Ok in H0 as (n3 & _ & H0).
  apply bind_Ok in H0 as (change & Hc & H0).
  apply bind_Ok in H0 as (after & Hf & H0).
  apply bind_Ok in H0 as (location & Hl & H0).
  apply bind_Ok in H0 as (res & Hr & _).
  apply str_replace_Ok in H1 as (s & -> & _).
  apply get_default_Ok in Hl as (d & -> & _).
  destruct res_type; simpl in Hr; try discriminate.
  rewrite (generate_arm_template_table _ _ _ _ _ Ht Ha Hc Hf) in H.
  destruct (rule_of s0) as [rule |] eqn:E; [| discriminate].
  inversion H; subst. exists s0, s, change, d, rule.
  repeat split; assumption.
Qed.

(** ** C2: the firewall scenario *)

(** C2. A record of type [azurerm_firewall] with actions [["create"]] and
    [after = {"location": "westus", "sku_name": "AZFW_Hub"}], whatever its
    address, is synthesized into a descriptor whose resource has type
    [Microsoft.Network/azureFirewalls], location [westus], [sku.name]
    [AZFW_Hub] and [sku.tier] [Standard]. *)
Theorem firewall_scenario (address : string) :
  exists template res sku,
    generate_arm_template
      (record "azurerm_firewall" address ["create"]
         (JObj [("location", JStr "westus"); ("sku_name", JStr "AZFW_Hub")]))
    = Ok template /\
    resource_of template = Ok res /\
    subscript res "type" = Ok (JStr "Microsoft.Network/azureFirewalls") /\
    subscript res "location" = Ok (JStr "westus") /\
    subscript res "sku" = Ok sku /\
    subscript sku "name" = Ok (JStr "AZFW_Hub") /\
    subscript sku "tier" = Ok (JStr "Standard").
Proof.
  eexists; eexists; eexists.
  split; [reflexivity |].
  repeat split; reflexivity.
Qed.

(** ** C6: only the rule's attributes *)

Lemma keys_descriptor_resource (rule : kind_rule) (address : string)
    (after : dict) :
  keys (descriptor_resource rule address after) = resource_attributes rule.
Proof.
  unfold descriptor_resource, resource_attributes, sku_fields.
  destruct (sku_source rule) as [[attribute default] |]; reflexivity.
Qed.

Lemma sku_descriptor_resource (rule : kind_rule) (address : string)
    (after : dict) :
  match dict_get "sku" (descriptor_resource rule address after) with
  | Some sku => exists d, sku = JObj d /\ keys d = sku_attributes rule
  | None => sku_attributes rule = []
  end.
Proof.
  unfold descriptor_resource, sku_attributes, sku_fields.
  destruct (sku_source rule) as [[attribute default] |]; simpl; [| reflexivity].
  eexists; split; [reflexivity |].
  destruct (sku_tier rule); reflexivity.
Qed.

(** C6. Whenever synthesis returns a descriptor, the record's type has a
    rule and the descriptor holds exactly: the three top-level entries
    [$schema], [contentVersion] and [resources]; one resource, whose
    attributes are [type], [apiVersion], [name], [location] and, when the
    rule has a SKU, [sku]; and inside [sku] only [name] and, when the rule
    has a tier, [tier]. No other attribute appears. *)
Theorem descriptor_is_minimal (resource template : json) :
  generate_arm_template resource = Ok template ->
  exists res_type rule res,
    subscript resource "type" = Ok (JStr res_type) /\
    rule_of res_type = Some rule /\
    template = JObj [("$schema", JStr schema_url);
                     ("contentVersion", JStr "1.0.0.0");
                     ("resources", JArr [JObj res])] /\
    keys res = resource_attributes rule /\
    (forall k, In k (keys res) ->
               In k ["type"; "apiVersion"; "name"; "location"; "sku"]) /\
    match dict_get "sku" res with
    | Some sku =>
        exists d, sku = JObj d /\ keys d = sku_attributes rule /\
                  (forall k, In k (keys d) -> In k ["name"; "tier"])
    | None => sku_attributes rule = []
    end.
Proof.
  intros H.
  apply generate_arm_template_Ok in H
    as (res_type & address & change & after & rule & Ht & _ & _ & _ & Hr & ->).
  exists res_type, rule, (descriptor_resource rule address after).
  repeat split; try assumption.
  - apply keys_descriptor_resource.
  - rewrite keys_descriptor_resource. unfold resource_attributes.
    destruct (sku_source rule); simpl; intuition.
  - pose proof (sku_descriptor_resource rule address after) as Hs.
    destruct (dict_get "sku" (descriptor_resource rule address after));
      [| assumption].
    destruct Hs as (d & -> & Hd). exists d. repeat split; try assumption.
    rewrite Hd. unfold sku_attributes.
    destruct (sku_source rule); [destruct (sku_tier rule) |]; simpl; intuition.
Qed.

Lemma descriptor_is_minimal_witness :
  exists res_type rule res,
    subscript firewall_hub "type" = Ok (JStr res_type) /\
    rule_of res_type = Some rule /\
    descriptor
      {| provider_type := "Microsoft.Network/azureFirewalls";
         sku_source := Some ("sku_name", "AZFW_VNet");
         sku_tier := Some "Standard" |}
      "module.hub.azurerm_firewall.fw[0]"
      [("location", JStr "westus"); ("sku_name", JStr "AZFW_Hub")]
    = JObj [("$schema", JStr schema_url);
            ("contentVersion", JStr "1.0.0.0");
            ("resources", JArr [JObj res])] /\
    keys res = resource_attributes rule /\
    (forall k, In k (keys res) ->
               In k ["type"; "apiVersion"; "name"; "location"; "sku"]) /\
    match dict_get "sku" res with
    | Some sku =>
        exists d, sku = JObj d /\ keys d = sku_attributes rule /\
                  (forall k, In k (keys d) -> In k ["name"; "tier"])
    | None => sku_attributes rule = []
    end.
Proof.
  refine (descriptor_is_minimal firewall_hub _ _). vm_compute. reflexivity.
Defined.

(** ** C7: the location *)

(** C7. For a record whose type has a rule, whose address is a string and
    whose [change.after] is a mapping, synthesis succeeds, and the
    descriptor's location is [after.location] when the mapping has that
    attribute and the fixed region [eastus] when it has not. *)
Theorem location_fallback (resource change : json) (res_type address : string)
    (after : dict) :
  subscript resource "type" = Ok (JStr res_type) ->
  rule_of res_type <> None ->
  subscript resource "address" = Ok (JStr address) ->
  subscript resource "change" = Ok change ->
  subscript change "after" = Ok (JObj after) ->
  exists template res,
    generate_arm_template resource = Ok template /\
    resource_of template = Ok res /\
    subscript res "location" =
    Ok match dict_get "location" after with
       | Some v => v
       | None => JStr "eastus"
       end.
Proof.
  intros Ht Hr Ha Hc Hf.
  rewrite (generate_arm_template_table _ _ _ _ _ Ht Ha Hc Hf).
  destruct (rule_of res_type) as [rule |]; [| congruence].
  exists (descriptor rule address after), (JObj (descriptor_resource rule address after)).
  split; [reflexivity |]. split; [reflexivity |].
  unfold descriptor_resource, or_default; simpl.
  destruct (dict_get "location" after); reflexivity.
Qed.

Lemma location_fallback_witness :
  exists template res,
    generate_arm_template bastion_without_location = Ok template /\
    resource_of template = Ok res /\
    subscript res "location" = Ok (JStr "eastus").
Proof.
  refine (location_fallback bastion_without_location
            (JObj [("actions", JArr [JStr "update"]);
                   ("after", JObj [("name", JStr "jump")])])
            "azurerm_bastion_host" "azurerm_bastion_host.jump"
            [("name", JStr "jump")] _ _ _ _ _);
    vm_compute; try reflexivity.
  discriminate.
Defined.

(** ** The loop body on a selected record *)

Lemma resource_of_descriptor (rule : kind_rule) (address : string) (after : dict) :
  resource_of (descriptor rule address after)
  = Ok (JObj (descriptor_resource rule address after)).
Proof. reflexivity. Qed.

Lemma location_of_descriptor (rule : kind_rule) (address : string) (after : dict) :
  subscript (JObj (descriptor_resource rule address after)) "location"
  = Ok (or_default (dict_get "location" after) "eastus").
Proof. reflexivity. Qed.

Lemma sku_of_dict (after : dict) : exists sku, sku_of (JObj after) = Ok sku.
Proof.
  unfold sku_of, get, get_default.
  destruct (dict_get "sku_name" after) as [a |]; simpl.
  - destruct (truthy a); [eauto |].
    destruct (dict_get "sku" after); simpl; eauto.
  - destruct (dict_get "sku" after); simpl; eauto.
Qed.

(** What the loop body does with a record it selects and synthesizes a
    template for, in terms of what the world answers. *)
Lemma step_selected (high_risk : list string) (w : world) (sub : string)
    (resource template : json) :
  in_scope high_risk resource = Ok true ->
  generate_arm_template resource = Ok template ->
  exists address res location after zones sku,
    subscript resource "address" = Ok address /\
    resource_of template = Ok res /\
    subscript res "location" = Ok location /\
    (change <- subscript resource "change" ;;
     get_default change "after" (JObj [])) = Ok after /\
    get_default after "zones" (JArr []) = Ok zones /\
    sku_of after = Ok sku /\
    forall st,
      step high_risk w sub resource st =
      match get_token w (List.length (calls st)) with
      | NoToken what => (st, Raise (External what))
      | Token token =>
          let req := validate_request token (uuid4 w (List.length (calls st)))
                       sub "preflight-rg" template in
          let resp := post w (List.length (calls st)) req in
          let calls' := (calls st ++ [(req, resp)])%list in
          match read_response resp with
          | Raise e => ({| errors := errors st; calls := calls' |}, Raise e)
          | Ok (true, _) => ({| errors := errors st; calls := calls' |}, Ok tt)
          | Ok (false, msg) =>
              ({| errors := (errors st
                             ++ [failure_block address location sku zones msg])%list;
                  calls := calls' |}, Ok tt)
          end
      end.
Proof.
  intros Hs Hg.
  destruct (generate_arm_template_Ok _ _ Hg)
    as (res_type & address & change & after & rule & Ht & Ha & Hc & Hf & Hr & ->).
  destruct (sku_of_dict after) as (sku & Hsku).
  apply subscript_Ok in Hf as (c & -> & Hf).
  assert (exists zones, get_default (JObj after) "zones" (JArr []) = Ok zones)
    as (zones & Hz).
  { unfold get_default. destruct (dict_get "zones" after); eauto. }
  exists (JStr address), (JObj (descriptor_resource rule address after)),
    (or_default (dict_get "location" after) "eastus"), (JObj after), zones, sku.
  split; [assumption |]. split; [reflexivity |]. split; [reflexivity |].
  split. { rewrite Hc. unfold bind, get_default. rewrite Hf. reflexivity. }
  split; [assumption |]. split; [assumption |].
  intros st. unfold step, bindM at 1, lift at 1. rewrite Hs.
  unfold bindM at 1, lift at 1. rewrite Hg.
  unfold bindM at 1, lift at 1.
  rewrite resource_of_descriptor. unfold bind at 1.
  rewrite location_of_descriptor.
  unfold bindM at 1, lift at 1. rewrite Hc. unfold bind at 1.
  unfold get_default at 1. rewrite Hf.
  unfold bindM at 1, lift at 1. rewrite Hz.
  unfold bindM at 1, lift at 1. rewrite Hsku.
  unfold bindM at 1, run_arm_validate, bindM at 1, acquire_token.
  destruct (get_token w (List.length (calls st))) as [token | what];
    [| reflexivity].
  unfold bindM at 1, fresh_uuid. unfold bindM at 1, do_post.
  unfold lift at 1. cbv zeta.
  destruct (read_response _) as [[[|] msg] | e]; try reflexivity.
  cbn [negb]. unfold bindM at 1, lift at 1. rewrite Ha.
  unfold append_error. reflexivity.
Qed.

(** ** The loop *)

Section Loop.

Variable high_risk : list string.
Variable w : world.
Variable sub : string.

Lemma step_not_selected (resource : json) (st : state) :
  in_scope high_risk resource = Ok false ->
  step high_risk w sub resource st = (st, Ok tt).
Proof.
  intros H. unfold step, bindM, lift. rewrite H. reflexivity.
Qed.

Lemma step_in_scope_raises (resource : json) (e : exn) (st : state) :
  in_scope high_risk resource = Raise e ->
  step high_risk w sub resource st = (st, Raise e).
Proof.
  intros H. unfold step, bindM, lift. rewrite H. reflexivity.
Qed.

Lemma step_synthesis_raises (resource : json) (e : exn) (st : state) :
  in_scope high_risk resource = Ok true ->
  generate_arm_template resource = Raise e ->
  step high_risk w sub resource st = (st, Raise e).
Proof.
  intros H G. unfold step, bindM at 1, lift at 1. rewrite H.
  unfold bindM at 1, lift at 1. rewrite G. reflexivity.
Qed.

Lemma reported_incl (l l' : list json) (entry : string)
    (c : request * response) :
  incl l l' ->
  reported high_risk sub l entry c -> reported high_risk sub l' entry c.
Proof.
  intros Hi (resource & template & address & res & location & after & zones
             & sku & msg & token & uuid & Hin & H).
  exists resource, template, address, res, location, after, zones, sku, msg,
    token, uuid.
  split; [apply Hi, Hin | exact H].
Qed.

(** One pass through the loop body that does not raise posts at most one
    request and appends an entry exactly when that request is rejected. *)
Lemma step_Ok (resource : json) (st st' : state) :
  step high_risk w sub resource st = (st', Ok tt) ->
  exists new_calls new_errors,
    calls st' = (calls st ++ new_calls)%list /\
    errors st' = (errors st ++ new_errors)%list /\
    Forall2 (reported high_risk sub [resource]) new_errors
      (filter rejected new_calls).
Proof.
  intros H.
  destruct (in_scope high_risk resource) as [[|] | e] eqn:Hs.
  - destruct (generate_arm_template resource) as [template | e] eqn:Hg.
    + destruct (step_selected high_risk w sub resource template Hs Hg)
        as (address & res & location & after & zones & sku
            & Ha & Hres & Hl & Hf & Hz & Hsku & Hstep).
      rewrite Hstep in H.
      destruct (get_token w (List.length (calls st))) as [token | what];
        [| discriminate].
      cbv zeta in H.
      set (req := validate_request token (uuid4 w (List.length (calls st)))
                    sub "preflight-rg" template) in *.
      set (resp := post w (List.length (calls st)) req) in *.
      destruct (read_response resp) as [[[|] msg] | e] eqn:Hr;
        inversion H; subst; clear H; cbn [calls errors].
      * exists [(req, resp)], []. split; [reflexivity |].
        split; [symmetry; apply app_nil_r |].
        cbn [filter]. unfold rejected; cbn [snd]. rewrite Hr. constructor.
      * exists [(req, resp)], [failure_block address location sku zones msg].
        split; [reflexivity |]. split; [reflexivity |].
        cbn [filter]. unfold rejected; cbn [snd]. rewrite Hr.
        constructor; [| constructor].
        exists resource, template, address, res, location, after, zones, sku,
          msg, token, (uuid4 w (List.length (calls st))).
        cbn [fst snd].
        repeat split; try assumption. left; reflexivity.
    + rewrite (step_synthesis_raises _ _ _ Hs Hg) in H. discriminate.
  - rewrite (step_not_selected _ _ Hs) in H. inversion H; subst.
    exists [], []. rewrite !app_nil_r. repeat split. constructor.
  - rewrite (step_in_scope_raises _ _ _ Hs) in H. discriminate.
Qed.

Lemma for_each_cons (resource : json) (l : list json) (st : state) :
  for_each high_risk w sub (resource :: l) st =
  match step high_risk w sub resource st with
  | (st1, Ok _) => for_each high_risk w sub l st1
  | (st1, Raise e) => (st1, Raise e)
  end.
Proof. reflexivity. Qed.

Lemma for_each_Ok (l : list json) : forall st st',
  for_each high_risk w sub l st = (st', Ok tt) ->
  exists new_calls new_errors,
    calls st' = (calls st ++ new_calls)%list /\
    errors st' = (errors st ++ new_errors)%list /\
    Forall2 (reported high_risk sub l) new_errors (filter rejected new_calls).
Proof.
  induction l as [| resource l IH]; intros st st' H.
  - inversion H; subst. exists [], []. rewrite !app_nil_r.
    repeat split. constructor.
  - rewrite for_each_cons in H.
    destruct (step high_risk w sub resource st) as [st1 [[] | e]] eqn:Hstep;
      [| discriminate].
    apply step_Ok in Hstep as (c1 & e1 & Hc1 & He1 & F1).
    apply IH in H as (c2 & e2 & Hc2 & He2 & F2).
    exists (c1 ++ c2)%list, (e1 ++ e2)%list.
    rewrite Hc2, He2, Hc1, He1, <- !app_assoc.
    split; [reflexivity |]. split; [reflexivity |].
    rewrite filter_app. apply Forall2_app.
    + eapply Forall2_impl; [| exact F1].
      intros a b. apply reported_incl. intros x [<- | []]. left; reflexivity.
    + eapply Forall2_impl; [| exact F2].
      intros a b. apply reported_incl. intros x Hx. right; exact Hx.
Qed.

Lemma for_each_none_selected (l : list json) (st : state) :
  Forall (fun resource => in_scope high_risk resource = Ok false) l ->
  for_each high_risk w sub l st = (st, Ok tt).
Proof.
  induction 1 as [| resource l H _ IH]; [reflexivity |].
  rewrite for_each_cons, (step_not_selected _ _ H). exact IH.
Qed.

(** The records before an exception are processed, those after it are not. *)
Lemma for_each_raises (before after : list json) (resource : json) (e : exn) :
  forall st st1 st2,
  for_each high_risk w sub before st = (st1, Ok tt) ->
  step high_risk w sub resource st1 = (st2, Raise e) ->
  for_each high_risk w sub (before ++ resource :: after) st = (st2, Raise e).
Proof.
  induction before as [| r before IH]; intros st st1 st2 Hb Hs.
  - inversion Hb; subst. cbn [app]. rewrite for_each_cons, Hs. reflexivity.
  - cbn [app]. rewrite for_each_cons in *.
    destruct (step high_risk w sub r st) as [st0 [[] | e0]]; [| discriminate].
    eapply IH; eassumption.
Qed.

Lemma run_unfold (plan : json) (l : list json) :
  resource_changes plan = Ok l ->
  run high_risk w sub plan =
  match for_each high_risk w sub l initial with
  | (st, Raise e) =>
      {| stdout := []; exit_code := 1; uncaught := Some e;
         failures := errors st; validations := calls st |}
  | (st, Ok _) =>
      match errors st with
      | _ :: _ =>
          {| stdout := failed_header :: errors st; exit_code := 1;
             uncaught := None;
             failures := errors st; validations := calls st |}
      | [] =>
          {| stdout := [passed_line]; exit_code := 0; uncaught := None;
             failures := errors st; validations := calls st |}
      end
  end.
Proof.
  intros H. unfold run, bindM at 1, lift at 1. rewrite H. reflexivity.
Qed.

Lemma run_raises (plan : json) (before after : list json) (resource : json)
    (st st' : state) (e : exn) :
  resource_changes plan = Ok (before ++ resource :: after)%list ->
  for_each high_risk w sub before initial = (st, Ok tt) ->
  step high_risk w sub resource st = (st', Raise e) ->
  run high_risk w sub plan =
  {| stdout := []; exit_code := 1; uncaught := Some e;
     failures := errors st'; validations := calls st' |}.
Proof.
  intros Hp Hb Hs.
  rewrite (run_unfold _ _ Hp), (for_each_raises _ _ _ _ _ _ _ Hb Hs).
  reflexivity.
Qed.

Lemma run_no_plan (plan : json) (e : exn) :
  resource_changes plan = Raise e ->
  run high_risk w sub plan =
  {| stdout := []; exit_code := 1; uncaught := Some e;
     failures := []; validations := [] |}.
Proof.
  intros H. unfold run, bindM at 1, lift at 1. rewrite H. reflexivity.
Qed.

End Loop.

(** ** The classifier *)

Lemma eq_str_true (v : json) (s : string) : eq_str v s = true <-> v = JStr s.
Proof.
  destruct v; simpl; try (split; [discriminate | intros H; inversion H]).
  rewrite String.eqb_eq. split; [intros -> | intros H; inversion H]; reflexivity.
Qed.

Lemma py_in_str (s : string) (l : list string) :
  py_in (JStr s) l = true <-> In s l.
Proof.
  unfold py_in. rewrite existsb_exists. split.
  - intros (x & Hx & E). apply String.eqb_eq in E. subst. exact Hx.
  - intros H. exists s. split; [exact H | apply String.eqb_refl].
Qed.

Lemma py_in_true (v : json) (l : list string) :
  py_in v l = true -> exists s, v = JStr s /\ In s l.
Proof.
  unfold py_in. rewrite existsb_exists. intros (x & Hx & E).
  apply eq_str_true in E. eauto.
Qed.

Lemma intersects_strs (acts t : list string) :
  intersects (map JStr acts) t = true <-> exists a, In a acts /\ In a t.
Proof.
  unfold intersects. rewrite existsb_exists. split.
  - intros (v & Hv & E). apply in_map_iff in Hv as (a & <- & Ha).
    apply py_in_str in E. eauto.
  - intros (a & Ha & Ht). exists (JStr a). split.
    + apply in_map. exact Ha.
    + apply py_in_str. exact Ht.
Qed.

Lemma hashable_strs (acts : list string) :
  forallb hashable (map JStr acts) = true.
Proof. induction acts; simpl; auto. Qed.

Lemma in_scope_typed (high_risk : list string) (resource change : json)
    (res_type : string) (acts : list string) :
  subscript resource "type" = Ok (JStr res_type) ->
  subscript resource "change" = Ok change ->
  get_default change "actions" (JArr []) = Ok (JArr (map JStr acts)) ->
  in_scope high_risk resource =
  Ok (py_in (JStr res_type) high_risk && intersects (map JStr acts) VALID_ACTIONS).
Proof.
  intros Ht Hc Ha. unfold in_scope. rewrite Hc. unfold bind at 1.
  rewrite Ha. unfold bind at 1. unfold py_set. cbn [iterate bind].
  rewrite hashable_strs. cbn [bind]. rewrite Ht. reflexivity.
Qed.

(** C3. For a record with a string [type] and a [change] whose [actions] is
    a list of strings (or is missing, which the loop reads as the empty
    list), the loop's test is true exactly when the type is one of
    [HIGH_RISK_RESOURCES] and some action is one of [VALID_ACTIONS]; and a
    record for which the test is false goes through the loop body without
    any request being posted and without any change to [errors]. *)
Theorem in_scope_iff (resource change : json) (res_type : string)
    (acts : list string) :
  subscript resource "type" = Ok (JStr res_type) ->
  subscript resource "change" = Ok change ->
  get_default change "actions" (JArr []) = Ok (JArr (map JStr acts)) ->
  exists selected,
    in_scope HIGH_RISK_RESOURCES resource = Ok selected /\
    (selected = true <->
     In res_type HIGH_RISK_RESOURCES /\
     exists a, In a acts /\ In a VALID_ACTIONS) /\
    (selected = false ->
     forall w sub st,
       step HIGH_RISK_RESOURCES w sub resource st = (st, Ok tt)).
Proof.
  intros Ht Hc Ha.
  pose proof (in_scope_typed HIGH_RISK_RESOURCES _ _ _ _ Ht Hc Ha) as Hs.
  eexists. split; [exact Hs |]. split.
  - rewrite andb_true_iff, py_in_str, intersects_strs. reflexivity.
  - intros Hf w sub st. apply step_not_selected. rewrite Hs, Hf. reflexivity.
Qed.

Lemma in_scope_iff_witness :
  exists selected,
    in_scope HIGH_RISK_RESOURCES lb_delete = Ok selected /\
    (selected = true <->
     In "azurerm_lb" HIGH_RISK_RESOURCES /\
     exists a, In a ["delete"] /\ In a VALID_ACTIONS) /\
    (selected = false ->
     forall w sub st,
       step HIGH_RISK_RESOURCES w sub lb_delete st = (st, Ok tt)).
Proof.
  refine (in_scope_iff lb_delete
            (JObj [("actions", JArr [JStr "delete"]); ("after", JNull)])
            "azurerm_lb" ["delete"] _ _ _);
    vm_compute; reflexivity.
Defined.

(** ** C8: nothing selected *)

(** C8. When the loop's test is false for every record of the plan, the
    run posts no request, ends with [errors] empty, prints the single line
    that validation passed and exits with status 0. *)
Theorem nothing_selected_passes (w : world) (sub : string) (plan : json)
    (records : list json) :
  resource_changes plan = Ok records ->
  Forall (fun resource => in_scope HIGH_RISK_RESOURCES resource = Ok false)
    records ->
  preflight w sub plan =
  {| stdout := [passed_line]; exit_code := 0; uncaught := None;
     failures := []; validations := [] |}.
Proof.
  intros Hp Hn. unfold preflight.
  rewrite (run_unfold _ _ _ _ _ Hp), (for_each_none_selected _ _ _ _ _ Hn).
  reflexivity.
Qed.

Lemma nothing_selected_passes_witness :
  preflight (constant_world 400 denied) "sub" (plan_of [lb_delete]) =
  {| stdout := [passed_line]; exit_code := 0; uncaught := None;
     failures := []; validations := [] |}.
Proof.
  refine (nothing_selected_passes _ _ _ [lb_delete] _ _).
  - vm_compute. reflexivity.
  - constructor; [vm_compute; reflexivity | constructor].
Defined.

(** ** C4: the verdict *)

(** The claim of C4 fails for the runs an exception ends. In the first
    run the first request is answered with a 400 and the second raises: a
    failure is in [errors], yet no block and no header is printed. In the
    second run the only request raises: [errors] is empty, yet the run is no
    pass, its exit status is 1 and the line that validation passed is not
    printed. *)
Lemma exception_leaves_no_verdict :
  let o1 := preflight (cut_world 1 400 sku_not_available) "sub"
              (plan_of [firewall_hub; bastion_without_location]) in
  let o2 := preflight (cut_world 0 400 sku_not_available) "sub"
              (plan_of [firewall_hub]) in
  (failures o1 =
   [failure_block (JStr "module.hub.azurerm_firewall.fw[0]") (JStr "westus")
      (JStr "AZFW_Hub") (JArr [])
      (json_dumps (JObj [("code", JStr "SkuNotAvailable")]))] /\
   stdout o1 = [] /\ exit_code o1 = 1%Z /\
   uncaught o1 = Some (External "ConnectionError")) /\
  (failures o2 = [] /\ stdout o2 = [] /\ exit_code o2 = 1%Z /\
   uncaught o2 = Some (External "ConnectionError")).
Proof.
  vm_compute. repeat split; reflexivity.
Qed.

(** C4, amended. For every plan, a run that no exception ends reaches the
    verdict, and there the exit status is 0 exactly when [errors] is empty;
    with [errors] empty the output is the single line that validation
    passed; otherwise the output is the header followed by the entries of
    [errors], and the exit status is 1. The entries of [errors] are, one for
    one and in order, the blocks of the rejected requests: each is made of
    the address, location, SKU and zones of a selected record of the plan
    and of the message read from the answer to that record's template. A
    run that an exception ends reaches no verdict: it prints nothing on
    standard output and its exit status is 1, whatever [errors] holds. *)
Theorem verdict_unless_exception (w : world) (sub : string) (plan : json) :
  let o := preflight w sub plan in
  (uncaught o = None ->
   (exit_code o = 0%Z <-> failures o = []) /\
   (failures o = [] -> stdout o = [passed_line]) /\
   (failures o <> [] ->
    stdout o = failed_header :: failures o /\ exit_code o = 1%Z) /\
   exists records,
     resource_changes plan = Ok records /\
     Forall2 (reported HIGH_RISK_RESOURCES sub records)
       (failures o) (filter rejected (validations o))) /\
  (forall e, uncaught o = Some e -> stdout o = [] /\ exit_code o = 1%Z).
Proof.
  unfold preflight. cbv zeta.
  destruct (resource_changes plan) as [records | e0] eqn:Hp.
  2: { rewrite (run_no_plan _ _ _ _ _ Hp). cbn [uncaught stdout exit_code].
       split; [discriminate | intros e _; split; reflexivity]. }
  rewrite (run_unfold _ _ _ _ _ Hp).
  destruct (for_each HIGH_RISK_RESOURCES w sub records initial)
    as [st [[] | e0]] eqn:Hl.
  2: { cbn [uncaught stdout exit_code].
       split; [discriminate | intros e _; split; reflexivity]. }
  apply for_each_Ok in Hl as (new_calls & new_errors & Hc & He & F).
  cbn [initial calls errors app] in Hc, He.
  assert (Forall2 (reported HIGH_RISK_RESOURCES sub records)
            (errors st) (filter rejected (calls st))) as F'
      by (rewrite Hc, He; exact F).
  destruct (errors st) as [| entry rest];
    cbn [uncaught exit_code failures stdout validations];
    (split; [intros _ | discriminate]).
  - split; [split; reflexivity |]. split; [reflexivity |].
    split; [congruence |]. exists records. split; [reflexivity | exact F'].
  - split; [split; discriminate |]. split; [discriminate |].
    split; [intros _; split; reflexivity |].
    exists records. split; [reflexivity | exact F'].
Qed.

Lemma verdict_unless_exception_witness :
  let o := preflight (constant_world 400 sku_not_available) "sub"
             (plan_of [lb_delete; firewall_hub]) in
  (exit_code o = 0%Z <-> failures o = []) /\
  (failures o = [] -> stdout o = [passed_line]) /\
  (failures o <> [] ->
   stdout o = failed_header :: failures o /\ exit_code o = 1%Z) /\
  exists records,
    resource_changes (plan_of [lb_delete; firewall_hub]) = Ok records /\
    Forall2 (reported HIGH_RISK_RESOURCES "sub" records)
      (failures o) (filter rejected (validations o)).
Proof.
  refine (proj1 (verdict_unless_exception _ _ _) _). vm_compute. reflexivity.
Defined.

(** ** C5: a type without a rule *)

Lemma subscript_functional (v : json) (k : string) (x y : json) :
  subscript v k = Ok x -> subscript v k = Ok y -> x = y.
Proof. congruence. Qed.

(** C5. For a record whose type has no branch in [generate_arm_template]:
    the function never returns a descriptor; when the record has a string
    address and a mapping [change.after], it raises [ValueError] with the
    message naming the type; and under any configuration of the loop that
    selects such a record, the exception ends the run at that record: the
    exit status is 1, nothing is printed on standard output, and the records
    after it are not processed, so that [errors] and the posted requests are
    those of the records before it. *)
Theorem unsupported_kind_is_fatal (resource : json) (res_type : string) :
  subscript resource "type" = Ok (JStr res_type) ->
  rule_of res_type = None ->
  (forall template, generate_arm_template resource <> Ok template) /\
  (forall address change fields,
     subscript resource "address" = Ok (JStr address) ->
     subscript resource "change" = Ok change ->
     subscript change "after" = Ok (JObj fields) ->
     generate_arm_template resource =
     Raise (ValueError ("Unknown resource type " ++ res_type))) /\
  (forall high_risk w sub plan before after st e,
     in_scope high_risk resource = Ok true ->
     generate_arm_template resource = Raise e ->
     resource_changes plan = Ok (before ++ resource :: after)%list ->
     for_each high_risk w sub before initial = (st, Ok tt) ->
     run high_risk w sub plan =
     {| stdout := []; exit_code := 1; uncaught := Some e;
        failures := errors st; validations := calls st |}).
Proof.
  intros Ht Hr. split; [| split].
  - intros template Hg.
    apply generate_arm_template_Ok in Hg
      as (res_type' & _ & _ & _ & rule & Ht' & _ & _ & _ & Hr' & _).
    pose proof (subscript_functional _ _ _ _ Ht Ht') as E.
    inversion E; subst. congruence.
  - intros address change fields Ha Hc Hf.
    rewrite (generate_arm_template_table _ _ _ _ _ Ht Ha Hc Hf), Hr.
    reflexivity.
  - intros high_risk w sub plan before after st e Hs Hg Hp Hb.
    apply (run_raises high_risk w sub plan before after resource st st e Hp Hb).
    apply step_synthesis_raises; assumption.
Qed.

Lemma unsupported_kind_is_fatal_witness :
  generate_arm_template public_ip =
  Raise (ValueError "Unknown resource type azurerm_public_ip") /\
  run with_public_ip (constant_world 400 sku_not_available) "sub"
    (plan_of [lb_delete; public_ip; firewall_hub]) =
  {| stdout := []; exit_code := 1;
     uncaught := Some (ValueError "Unknown resource type azurerm_public_ip");
     failures := []; validations := [] |}.
Proof.
  destruct (unsupported_kind_is_fatal public_ip "azurerm_public_ip")
    as (_ & Hraise & Hfatal); [vm_compute; reflexivity .. |].
  split.
  - refine (Hraise "azurerm_public_ip.pip"
              (JObj [("actions", JArr [JStr "create"]);
                     ("after", JObj [("location", JStr "westus")])])
              [("location", JStr "westus")] _ _ _);
      vm_compute; reflexivity.
  - refine (Hfatal with_public_ip _ "sub" _ [lb_delete] [firewall_hub]
              initial _ _ _ _ _);
      vm_compute; reflexivity.
Defined.

(** ** C9: the unknown-type branch cannot be reached from the loop *)

Lemma bind_Raise {A B} (m : result A) (k : A -> result B) (e : exn) :
  bind m k = Raise e -> m = Raise e \/ exists a, m = Ok a /\ k a = Raise e.
Proof.
  destruct m as [a | e']; simpl; intros H; [right; eauto | left; congruence].
Qed.

Lemma subscript_raises (v : json) (k : string) (e : exn) :
  subscript v k = Raise e -> is_ValueError e = false.
Proof.
  destruct v; simpl; try (intros H; inversion H; reflexivity).
  destruct (dict_get k fields); intros H; inversion H; reflexivity.
Qed.

Lemma get_default_raises (v : json) (k : string) (default : json) (e : exn) :
  get_default v k default = Raise e -> is_ValueError e = false.
Proof.
  destruct v; simpl; try (intros H; inversion H; reflexivity).
  destruct (dict_get k fields); discriminate.
Qed.

Lemma str_replace_raises (v : json) (c : ascii) (by_ : string) (e : exn) :
  str_replace v c by_ = Raise e -> is_ValueError e = false.
Proof.
  destruct v; simpl; intros H; inversion H; reflexivity.
Qed.

Lemma iterate_raises (v : json) (e : exn) :
  iterate v = Raise e -> is_ValueError e = false.
Proof.
  destruct v; simpl; intros H; inversion H; reflexivity.
Qed.

Lemma py_set_raises (v : json) (e : exn) :
  py_set v = Raise e -> is_ValueError e = false.
Proof.
  unfold py_set. intros H.
  apply bind_Raise in H as [H | (l & _ & H)].
  - eapply iterate_raises, H.
  - destruct (forallb hashable l); inversion H; reflexivity.
Qed.

Lemma read_response_raises (resp : response) (e : exn) :
  read_response resp = Raise e -> is_ValueError e = false.
Proof.
  destruct resp as [what | status_code [payload |]]; simpl;
    try (intros H; inversion H; reflexivity).
  destruct (status_code =? 200)%Z; [discriminate |].
  intros H. apply bind_Raise in H as [H | (? & _ & H)]; [| discriminate].
  eapply get_default_raises, H.
Qed.

Create HintDb raises.
#[local] Hint Resolve subscript_raises get_default_raises str_replace_raises
  iterate_raises py_set_raises read_response_raises : raises.

(** Peel one [bind] off a computation that raised: either its first part
    raised, which one of the lemmas above settles, or the raise is later. *)
Ltac peel H :=
  apply bind_Raise in H as [H | (? & ? & H)]; [solve [eauto with raises] |].

Lemma in_scope_raises (high_risk : list string) (resource : json) (e : exn) :
  in_scope high_risk resource = Raise e -> is_ValueError e = false.
Proof.
  unfold in_scope. intros H. do 4 peel H. discriminate.
Qed.

Lemma in_scope_true_type (high_risk : list string) (resource : json) :
  in_scope high_risk resource = Ok true ->
  exists res_type,
    subscript resource "type" = Ok res_type /\ py_in res_type high_risk = true.
Proof.
  unfold in_scope. intros H.
  apply bind_Ok in H as (change & _ & H).
  apply bind_Ok in H as (acts & _ & H).
  apply bind_Ok in H as (actions & _ & H).
  apply bind_Ok in H as (res_type & Ht & H).
  injection H as E. apply andb_true_iff in E as [E _].
  exists res_type. split; assumption.
Qed.

Lemma resource_changes_raises (plan : json) (e : exn) :
  resource_changes plan = Raise e -> is_ValueError e = false.
Proof.
  unfold resource_changes. intros H. peel H. eauto with raises.
Qed.

(** [generate_arm_template] raises [ValueError] only from its last branch,
    that is, for a type that is none of the four it tests. *)
Lemma generate_arm_template_ValueError (resource : json) (e : exn) :
  generate_arm_template resource = Raise e ->
  is_ValueError e = true ->
  exists res_type,
    subscript resource "type" = Ok res_type /\
    py_in res_type HIGH_RISK_RESOURCES = false.
Proof.
  unfold generate_arm_template. intros H V.
  assert (forall x, is_ValueError e = false -> x) as absurd
      by (intros x F; rewrite F in V; discriminate).
  apply bind_Raise in H as [H | (res_type & Ht & H)];
    [apply absurd; eauto with raises |].
  do 7 (apply bind_Raise in H as [H | (? & ? & H)];
        [apply absurd; eauto with raises |]).
  apply bind_Raise in H as [H | (? & ? & H)]; [| discriminate].
  exists res_type. split; [exact Ht |].
  unfold py_in, HIGH_RISK_RESOURCES. cbn [existsb].
  destruct (eq_str res_type "azurerm_firewall").
  { apply absurd. do 3 peel H. discriminate. }
  destruct (eq_str res_type "azurerm_application_gateway").
  { apply absurd. do 3 peel H. discriminate. }
  destruct (eq_str res_type "azurerm_lb").
  { apply absurd. do 3 peel H. discriminate. }
  destruct (eq_str res_type "azurerm_bastion_host"); [discriminate |].
  reflexivity.
Qed.

Lemma step_raises (w : world) (sub : string) (resource : json)
    (st st' : state) (e : exn) :
  step HIGH_RISK_RESOURCES w sub resource st = (st', Raise e) ->
  is_ValueError e = false.
Proof.
  intros H.
  destruct (in_scope HIGH_RISK_RESOURCES resource) as [[|] | e0] eqn:Hs.
  - destruct (generate_arm_template resource) as [template | e0] eqn:Hg.
    + destruct (step_selected HIGH_RISK_RESOURCES w sub resource template Hs Hg)
        as (address & res & location & after & zones & sku & _ & _ & _ & _ & _
            & _ & Hstep).
      rewrite Hstep in H.
      destruct (get_token w (List.length (calls st))) as [token | what].
      * cbv zeta in H.
        destruct (read_response _) as [[[|] msg] | e0] eqn:Hr;
          inversion H; subst.
        eapply read_response_raises, Hr.
      * inversion H; reflexivity.
    + rewrite (step_synthesis_raises _ _ _ _ _ _ Hs Hg) in H.
      inversion H; subst.
      destruct (is_ValueError e) eqn:V; [| reflexivity].
      destruct (generate_arm_template_ValueError _ _ Hg V) as (ty & Ht & Hn).
      destruct (in_scope_true_type _ _ Hs) as (ty' & Ht' & Hy).
      pose proof (subscript_functional _ _ _ _ Ht Ht'); subst. congruence.
  - rewrite (step_not_selected _ _ _ _ _ Hs) in H. discriminate.
  - rewrite (step_in_scope_raises _ _ _ _ _ _ Hs) in H.
    inversion H; subst. eapply in_scope_raises, Hs.
Qed.

Lemma for_each_raises_benign (w : world) (sub : string) (l : list json) :
  forall st st' e,
    for_each HIGH_RISK_RESOURCES w sub l st = (st', Raise e) ->
    is_ValueError e = false.
Proof.
  induction l as [| resource l IH]; intros st st' e H; [discriminate |].
  rewrite for_each_cons in H.
  destruct (step HIGH_RISK_RESOURCES w sub resource st) as [st1 [[] | e0]] eqn:Hs.
  - eapply IH, H.
  - inversion H; subst. eapply step_raises, Hs.
Qed.

Lemma high_risk_has_rule (res_type : string) :
  In res_type HIGH_RISK_RESOURCES <-> rule_of res_type <> None.
Proof.
  unfold rule_of, HIGH_RISK_RESOURCES. split.
  - intros [<- | [<- | [<- | [<- | []]]]]; discriminate.
  - intros H.
    destruct (String.eqb res_type "azurerm_firewall") eqn:E1;
      [apply String.eqb_eq in E1; subst; simpl; auto |].
    destruct (String.eqb res_type "azurerm_application_gateway") eqn:E2;
      [apply String.eqb_eq in E2; subst; simpl; auto |].
    destruct (String.eqb res_type "azurerm_lb") eqn:E3;
      [apply String.eqb_eq in E3; subst; simpl; auto |].
    destruct (String.eqb res_type "azurerm_bastion_host") eqn:E4;
      [apply String.eqb_eq in E4; subst; simpl; auto 6 |].
    congruence.
Qed.

(** C9. The types [generate_arm_template] has a branch for are exactly the
    four of [HIGH_RISK_RESOURCES]. Hence for a record the loop selects the
    function never raises its [ValueError], and no run of the script, for
    any plan and any world, is ended by that exception. *)
Theorem dispatch_covers_high_risk :
  (forall res_type,
     In res_type HIGH_RISK_RESOURCES <-> rule_of res_type <> None) /\
  (forall resource msg,
     in_scope HIGH_RISK_RESOURCES resource = Ok true ->
     generate_arm_template resource <> Raise (ValueError msg)) /\
  (forall w sub plan msg,
     uncaught (preflight w sub plan) <> Some (ValueError msg)).
Proof.
  split; [exact high_risk_has_rule |]. split.
  - intros resource msg Hs Hg.
    destruct (generate_arm_template_ValueError _ _ Hg eq_refl) as (ty & Ht & Hn).
    destruct (in_scope_true_type _ _ Hs) as (ty' & Ht' & Hy).
    pose proof (subscript_functional _ _ _ _ Ht Ht'); subst. congruence.
  - intros w sub plan msg Hu. unfold preflight in Hu.
    destruct (resource_changes plan) as [records | e] eqn:Hp.
    + rewrite (run_unfold _ _ _ _ _ Hp) in Hu.
      destruct (for_each HIGH_RISK_RESOURCES w sub records initial)
        as [st [[] | e]] eqn:Hl.
      * destruct (errors st); discriminate.
      * inversion Hu; subst.
        apply for_each_raises_benign in Hl. discriminate.
    + rewrite (run_no_plan _ _ _ _ _ Hp) in Hu. inversion Hu; subst.
      apply resource_changes_raises in Hp. discriminate.
Qed.

Lemma dispatch_covers_high_risk_witness :
  generate_arm_template firewall_hub <> Raise (ValueError "Unknown resource type azurerm_firewall").
Proof.
  destruct dispatch_covers_high_risk as (_ & H & _).
  apply H. vm_compute. reflexivity.
Defined.

(** ** C10: [change.after] must be a mapping *)

(** C10. For a record the loop selects, with a string type and address:
    when [change] has no [after], synthesis raises [KeyError]; when [after]
    is there but is not a mapping, [null] included, it raises
    [AttributeError]; when [after] is a mapping, even an empty one, synthesis
    succeeds with the table's defaults filled in for the attributes the
    mapping lacks. An exception of synthesis leaves the loop body at once:
    no request is posted and [errors] is unchanged. *)
Theorem synthesis_requires_after (resource : json) (change : dict)
    (res_type address : string) :
  in_scope HIGH_RISK_RESOURCES resource = Ok true ->
  subscript resource "type" = Ok (JStr res_type) ->
  subscript resource "address" = Ok (JStr address) ->
  subscript resource "change" = Ok (JObj change) ->
  (dict_get "after" change = None ->
   generate_arm_template resource = Raise (KeyError "after")) /\
  (forall v, dict_get "after" change = Some v ->
             (forall fields, v <> JObj fields) ->
             generate_arm_template resource = Raise AttributeError) /\
  (forall fields, dict_get "after" change = Some (JObj fields) ->
                  exists rule,
                    rule_of res_type = Some rule /\
                    generate_arm_template resource =
                    Ok (descriptor rule address fields)) /\
  (forall e w sub st,
     generate_arm_template resource = Raise e ->
     step HIGH_RISK_RESOURCES w sub resource st = (st, Raise e)).
Proof.
  intros Hs Ht Ha Hc.
  split; [| split; [| split]].
  - intros Hn. unfold generate_arm_template.
    rewrite Ht, Ha; simpl. rewrite Hc; simpl. rewrite Hn. reflexivity.
  - intros v Hv Hnot. unfold generate_arm_template.
    rewrite Ht, Ha; simpl. rewrite Hc; simpl. rewrite Hv.
    destruct v; try reflexivity. exfalso. eapply Hnot. reflexivity.
  - intros fields Hf.
    assert (subscript (JObj change) "after" = Ok (JObj fields)) as Hf'
        by (simpl; rewrite Hf; reflexivity).
    rewrite (generate_arm_template_table _ _ _ _ _ Ht Ha Hc Hf').
    destruct (in_scope_true_type _ _ Hs) as (ty & Ht' & Hy).
    pose proof (subscript_functional _ _ _ _ Ht Ht'); subst ty.
    apply py_in_str, high_risk_has_rule in Hy.
    destruct (rule_of res_type) as [rule |]; [eauto | congruence].
  - intros e w sub st Hg. apply step_synthesis_raises; assumption.
Qed.

Lemma synthesis_requires_after_witness :
  generate_arm_template firewall_after_null = Raise AttributeError /\
  generate_arm_template firewall_without_after = Raise (KeyError "after").
Proof.
  split.
  - destruct (synthesis_requires_after firewall_after_null
                [("actions", JArr [JStr "create"]); ("after", JNull)]
                "azurerm_firewall" "azurerm_firewall.fw")
      as (_ & H & _); [vm_compute; reflexivity .. |].
    apply (H JNull); [vm_compute; reflexivity | discriminate].
  - destruct (synthesis_requires_after firewall_without_after
                [("actions", JArr [JStr "create"])]
                "azurerm_firewall" "azurerm_firewall.fw")
      as (H & _); [vm_compute; reflexivity .. |].
    apply H. vm_compute. reflexivity.
Defined.

(** ** C1: what becomes of an answer that is no verdict *)




(** * Further properties *)

(** ** The name of the resource *)

Lemma append_assoc (a b c : string) : (a ++ b) ++ c = a ++ (b ++ c).
Proof. induction a as [| x a IH]; simpl; [reflexivity | rewrite IH; reflexivity]. Qed.

Lemma length_append (a b : string) :
  String.length (a ++ b) = (String.length a + String.length b)%nat.
Proof. induction a as [| x a IH]; simpl; [reflexivity | rewrite IH; reflexivity]. Qed.

Lemma replace_append (c : ascii) (by_ a b : string) :
  replace c by_ (a ++ b) = replace c by_ a ++ replace c by_ b.
Proof.
  induction a as [| x a IH]; simpl; [reflexivity |].
  rewrite IH. destruct (Ascii.eqb x c); [rewrite append_assoc |]; reflexivity.
Qed.

Lemma contains_append (c : ascii) (a b : string) :
  contains c (a ++ b) = contains c a || contains c b.
Proof.
  induction a as [| x a IH]; simpl; [reflexivity |].
  rewrite IH, orb_assoc. reflexivity.
Qed.

(** After [replace c by_], the character [d] occurs only if it occurred
    before and is not [c], as long as [by_] does not bring it in. *)
Lemma contains_replace (c d : ascii) (by_ s : string) :
  contains d by_ = false ->
  contains d (replace c by_ s) =
  if Ascii.eqb d c then false else contains d s.
Proof.
  intros Hb. induction s as [| x s IH]; simpl.
  - destruct (Ascii.eqb d c); reflexivity.
  - destruct (Ascii.eqb x c) eqn:Exc.
    + apply Ascii.eqb_eq in Exc. subst x.
      rewrite contains_append, Hb, IH. simpl.
      rewrite (Ascii.eqb_sym c d). destruct (Ascii.eqb d c); reflexivity.
    + simpl. rewrite IH. destruct (Ascii.eqb d c) eqn:Edc.
      * apply Ascii.eqb_eq in Edc. subst d. rewrite Exc. reflexivity.
      * reflexivity.
Qed.

Lemma replace_absent (c : ascii) (by_ s : string) :
  contains c s = false -> replace c by_ s = s.
Proof.
  induction s as [| x s IH]; simpl; [reflexivity |].
  intros H. apply orb_false_iff in H as [Hx Hs].
  rewrite Hx, (IH Hs). reflexivity.
Qed.

Lemma length_replace_le (c : ascii) (by_ s : string) :
  (String.length by_ <= 1)%nat ->
  (String.length (replace c by_ s) <= String.length s)%nat.
Proof.
  intros Hb. induction s as [| x s IH]; simpl; [lia |].
  destruct (Ascii.eqb x c); [rewrite length_append |]; simpl; lia.
Qed.

Lemma resource_name_charset (address : string) :
  contains "." (resource_name address) = false /\
  contains "[" (resource_name address) = false /\
  contains "]" (resource_name address) = false.
Proof.
  unfold resource_name. repeat split.
  - rewrite contains_replace by reflexivity. cbn [Ascii.eqb Bool.eqb].
    rewrite contains_replace by reflexivity. cbn [Ascii.eqb Bool.eqb].
    rewrite contains_replace by reflexivity. reflexivity.
  - rewrite contains_replace by reflexivity. cbn [Ascii.eqb Bool.eqb].
    rewrite contains_replace by reflexivity. reflexivity.
  - rewrite contains_replace by reflexivity. reflexivity.
Qed.

Lemma name_of_descriptor (rule : kind_rule) (address : string) (after : dict) :
  subscript (JObj (descriptor_resource rule address after)) "name"
  = Ok (JStr (resource_name address)).
Proof. reflexivity. Qed.

(** X1. The name given to the resource of a returned template is a string
    made from the record's address, it contains no dot and no square
    bracket, and it is never longer than the address. *)
Theorem name_has_no_separator (resource template : json) :
  generate_arm_template resource = Ok template ->
  exists address name res,
    subscript resource "address" = Ok (JStr address) /\
    resource_of template = Ok res /\
    subscript res "name" = Ok (JStr name) /\
    contains "." name = false /\
    contains "[" name = false /\
    contains "]" name = false /\
    (String.length name <= String.length address)%nat.
Proof.
  intros H.
  apply generate_arm_template_Ok in H
    as (res_type & address & change & after & rule & _ & Ha & _ & _ & _ & ->).
  exists address, (resource_name address),
    (JObj (descriptor_resource rule address after)).
  destruct (resource_name_charset address) as (H1 & H2 & H3).
  repeat split; try assumption.
  unfold resource_name.
  etransitivity; [apply length_replace_le; simpl; lia |].
  etransitivity; apply length_replace_le; simpl; lia.
Qed.

Lemma name_has_no_separator_witness :
  exists address name res,
    subscript firewall_hub "address" = Ok (JStr address) /\
    resource_of firewall_hub_template = Ok res /\
    subscript res "name" = Ok (JStr name) /\
    contains "." name = false /\
    contains "[" name = false /\
    contains "]" name = false /\
    (String.length name <= String.length address)%nat.
Proof.
  refine (name_has_no_separator firewall_hub firewall_hub_template _).
  vm_compute. reflexivity.
Defined.

(** X2. An address that has no dot and no square bracket is used as the
    name unchanged. *)
Theorem clean_address_is_the_name (resource template : json) (address : string) :
  generate_arm_template resource = Ok template ->
  subscript resource "address" = Ok (JStr address) ->
  contains "." address = false ->
  contains "[" address = false ->
  contains "]" address = false ->
  exists res,
    resource_of template = Ok res /\
    subscript res "name" = Ok (JStr address).
Proof.
  intros H Ha H1 H2 H3.
  apply generate_arm_template_Ok in H
    as (res_type & address' & change & after & rule & _ & Ha' & _ & _ & _ & ->).
  pose proof (subscript_functional _ _ _ _ Ha Ha') as E.
  injection E as <-.
  exists (JObj (descriptor_resource rule address after)).
  split; [reflexivity |].
  rewrite name_of_descriptor. unfold resource_name.
  rewrite (replace_absent "." "-" address H1).
  rewrite (replace_absent "[" "-" address H2).
  rewrite (replace_absent "]" "" address H3). reflexivity.
Qed.

Lemma clean_address_is_the_name_witness :
  exists res,
    resource_of
      (descriptor
         {| provider_type := "Microsoft.Network/loadBalancers";
            sku_source := Some ("sku", "Standard");
            sku_tier := None |} "front" []) = Ok res /\
    subscript res "name" = Ok (JStr "front").
Proof.
  refine (clean_address_is_the_name
            (record "azurerm_lb" "front" ["create"] (JObj [])) _ "front"
            _ _ _ _ _);
    vm_compute; reflexivity.
Defined.

Lemma resource_name_append (a b : string) :
  resource_name (a ++ b) = resource_name a ++ resource_name b.
Proof. unfold resource_name. rewrite !replace_append. reflexivity. Qed.

(** X3. The name does not tell apart a dot, an opening bracket and a
    hyphen, and it drops closing brackets: two records of the same type and
    the same [change], whose addresses differ only in that one has a dot
    where the other has an opening bracket, get the same template, and so do
    two whose addresses differ by a closing bracket. *)
Theorem addresses_collide (r1 r2 change : json) (res_type before rest : string)
    (after : dict) :
  subscript r1 "type" = Ok (JStr res_type) ->
  subscript r2 "type" = Ok (JStr res_type) ->
  subscript r1 "change" = Ok change ->
  subscript r2 "change" = Ok change ->
  subscript change "after" = Ok (JObj after) ->
  (subscript r1 "address" = Ok (JStr (before ++ "." ++ rest)) /\
   subscript r2 "address" = Ok (JStr (before ++ "[" ++ rest)) \/
   subscript r1 "address" = Ok (JStr (before ++ "." ++ rest)) /\
   subscript r2 "address" = Ok (JStr (before ++ "-" ++ rest)) \/
   subscript r1 "address" = Ok (JStr (before ++ "]" ++ rest)) /\
   subscript r2 "address" = Ok (JStr (before ++ rest))) ->
  generate_arm_template r1 = generate_arm_template r2.
Proof.
  intros T1 T2 C1 C2 Hf [[A1 A2] | [[A1 A2] | [A1 A2]]];
    rewrite (generate_arm_template_table _ _ _ _ _ T1 A1 C1 Hf),
            (generate_arm_template_table _ _ _ _ _ T2 A2 C2 Hf);
    destruct (rule_of res_type) as [rule |]; try reflexivity;
    unfold descriptor, descriptor_resource;
    rewrite !resource_name_append; reflexivity.
Qed.

Lemma addresses_collide_witness :
  generate_arm_template
    (record "azurerm_lb" "azurerm_lb.front" ["create"] (JObj [])) =
  generate_arm_template
    (record "azurerm_lb" "azurerm_lb[front" ["create"] (JObj [])).
Proof.
  refine (addresses_collide _ _
            (JObj [("actions", JArr [JStr "create"]); ("after", JObj [])])
            "azurerm_lb" "azurerm_lb" "front" [] _ _ _ _ _ _);
    try (vm_compute; reflexivity).
  left. split; vm_compute; reflexivity.
Defined.

(** ** What the template holds *)

(** X4. The [None] the function first writes as the type never leaves it:
    the resource of a returned template has the provider type of the
    record's type, one of four, and the API version [2022-08-01]. *)
Theorem type_is_a_provider_type (resource template : json) :
  generate_arm_template resource = Ok template ->
  exists res_type provider res,
    subscript resource "type" = Ok (JStr res_type) /\
    resource_of template = Ok res /\
    subscript res "type" = Ok (JStr provider) /\
    subscript res "apiVersion" = Ok (JStr "2022-08-01") /\
    (res_type = "azurerm_firewall" /\
     provider = "Microsoft.Network/azureFirewalls" \/
     res_type = "azurerm_application_gateway" /\
     provider = "Microsoft.Network/applicationGateways" \/
     res_type = "azurerm_lb" /\
     provider = "Microsoft.Network/loadBalancers" \/
     res_type = "azurerm_bastion_host" /\
     provider = "Microsoft.Network/bastionHosts").
Proof.
  intros H.
  apply generate_arm_template_Ok in H
    as (res_type & address & change & after & rule & Ht & _ & _ & _ & Hr & ->).
  exists res_type, (provider_type rule),
    (JObj (descriptor_resource rule address after)).
  split; [assumption |]. split; [reflexivity |]. split; [reflexivity |].
  split; [reflexivity |].
  unfold rule_of in Hr.
  destruct (String.eqb res_type "azurerm_firewall") eqn:E1.
  { apply String.eqb_eq in E1. injection Hr as <-. auto. }
  destruct (String.eqb res_type "azurerm_application_gateway") eqn:E2.
  { apply String.eqb_eq in E2. injection Hr as <-. auto. }
  destruct (String.eqb res_type "azurerm_lb") eqn:E3.
  { apply String.eqb_eq in E3. injection Hr as <-. auto. }
  destruct (String.eqb res_type "azurerm_bastion_host") eqn:E4.
  { apply String.eqb_eq in E4. injection Hr as <-. auto 6. }
  discriminate.
Qed.

Lemma type_is_a_provider_type_witness :
  exists res_type provider res,
    subscript firewall_hub "type" = Ok (JStr res_type) /\
    resource_of firewall_hub_template = Ok res /\
    subscript res "type" = Ok (JStr provider) /\
    subscript res "apiVersion" = Ok (JStr "2022-08-01") /\
    (res_type = "azurerm_firewall" /\
     provider = "Microsoft.Network/azureFirewalls" \/
     res_type = "azurerm_application_gateway" /\
     provider = "Microsoft.Network/applicationGateways" \/
     res_type = "azurerm_lb" /\
     provider = "Microsoft.Network/loadBalancers" \/
     res_type = "azurerm_bastion_host" /\
     provider = "Microsoft.Network/bastionHosts").
Proof.
  refine (type_is_a_provider_type firewall_hub firewall_hub_template _).
  vm_compute. reflexivity.
Defined.

Lemma sku_source_attribute (res_type : string) (rule : kind_rule)
    (attribute default : string) :
  rule_of res_type = Some rule ->
  sku_source rule = Some (attribute, default) ->
  attribute = "sku_name" \/ attribute = "sku".
Proof.
  unfold rule_of. intros Hr Hs.
  destruct (String.eqb res_type "azurerm_firewall");
    [injection Hr as <-; injection Hs as <- _; auto |].
  destruct (String.eqb res_type "azurerm_application_gateway");
    [injection Hr as <-; injection Hs as <- _; auto |].
  destruct (String.eqb res_type "azurerm_lb");
    [injection Hr as <-; injection Hs as <- _; auto |].
  destruct (String.eqb res_type "azurerm_bastion_host");
    [injection Hr as <-; discriminate | discriminate].
Qed.

(** X5. Of a record, the template depends on the type, the address and
    three attributes of [after] only: [location], [sku_name] and [sku]. Two
    records that agree on these get the same template, whatever else they
    hold: their zones, their actions and every other attribute never reach
    the request. *)
Theorem template_ignores_the_rest (r1 r2 c1 c2 : json)
    (res_type address : string) (a1 a2 : dict) :
  subscript r1 "type" = Ok (JStr res_type) ->
  subscript r2 "type" = Ok (JStr res_type) ->
  subscript r1 "address" = Ok (JStr address) ->
  subscript r2 "address" = Ok (JStr address) ->
  subscript r1 "change" = Ok c1 ->
  subscript r2 "change" = Ok c2 ->
  subscript c1 "after" = Ok (JObj a1) ->
  subscript c2 "after" = Ok (JObj a2) ->
  dict_get "location" a1 = dict_get "location" a2 ->
  dict_get "sku_name" a1 = dict_get "sku_name" a2 ->
  dict_get "sku" a1 = dict_get "sku" a2 ->
  generate_arm_template r1 = generate_arm_template r2.
Proof.
  intros T1 T2 A1 A2 C1 C2 F1 F2 Hl Hn Hs.
  rewrite (generate_arm_template_table _ _ _ _ _ T1 A1 C1 F1),
          (generate_arm_template_table _ _ _ _ _ T2 A2 C2 F2).
  destruct (rule_of res_type) as [rule |] eqn:Hr; [| reflexivity].
  unfold descriptor, descriptor_resource, sku_fields. rewrite Hl.
  destruct (sku_source rule) as [[attribute default] |] eqn:Hk; [| reflexivity].
  destruct (sku_source_attribute _ _ _ _ Hr Hk) as [-> | ->];
    [rewrite Hn | rewrite Hs]; reflexivity.
Qed.

Lemma template_ignores_the_rest_witness :
  generate_arm_template firewall_hub =
  generate_arm_template
    (record "azurerm_firewall" "module.hub.azurerm_firewall.fw[0]"
       ["delete"; "create"]
       (JObj [("zones", JArr [JStr "1"; JStr "2"; JStr "3"]);
              ("sku_name", JStr "AZFW_Hub");
              ("sku_tier", JStr "Premium");
              ("location", JStr "westus")])).
Proof.
  refine (template_ignores_the_rest _ _
            (JObj [("actions", JArr [JStr "create"]);
                   ("after", JObj [("location", JStr "westus");
                                   ("sku_name", JStr "AZFW_Hub")])])
            (JObj [("actions", JArr [JStr "delete"; JStr "create"]);
                   ("after",
                    JObj [("zones", JArr [JStr "1"; JStr "2"; JStr "3"]);
                          ("sku_name", JStr "AZFW_Hub");
                          ("sku_tier", JStr "Premium");
                          ("location", JStr "westus")])])
            "azurerm_firewall" "module.hub.azurerm_firewall.fw[0]"
            [("location", JStr "westus"); ("sku_name", JStr "AZFW_Hub")]
            [("zones", JArr [JStr "1"; JStr "2"; JStr "3"]);
             ("sku_name", JStr "AZFW_Hub");
             ("sku_tier", JStr "Premium");
             ("location", JStr "westus")]
            _ _ _ _ _ _ _ _ _ _ _);
    vm_compute; reflexivity.
Defined.

(** ** What the report says about the SKU *)

Lemma sku_of_without_sku (fields : dict) :
  dict_get "sku_name" fields = None ->
  dict_get "sku" fields = None ->
  sku_of (JObj fields) = Ok (JStr "unknown").
Proof.
  intros H1 H2. unfold sku_of, get, get_default. rewrite H1. cbn [bind truthy].
  rewrite H2. reflexivity.
Qed.

(** X6. The SKU of the report is not the SKU of the request. For a selected
    record of a type with a SKU whose [after] has neither [sku_name] nor
    [sku], the template sent carries the default SKU of the type, and when
    the answer is a failure the block appended to [errors] gives the SKU as
    [unknown]. *)
Theorem report_says_unknown_where_template_defaults (w : world) (sub : string)
    (resource change : json) (res_type address attribute default token : string)
    (rule : kind_rule) (fields payload : dict) (status_code : Z) (st : state) :
  in_scope HIGH_RISK_RESOURCES resource = Ok true ->
  subscript resource "type" = Ok (JStr res_type) ->
  rule_of res_type = Some rule ->
  sku_source rule = Some (attribute, default) ->
  subscript resource "address" = Ok (JStr address) ->
  subscript resource "change" = Ok change ->
  subscript change "after" = Ok (JObj fields) ->
  dict_get "sku_name" fields = None ->
  dict_get "sku" fields = None ->
  get_token w (List.length (calls st)) = Token token ->
  let template := descriptor rule address fields in
  let req := validate_request token (uuid4 w (List.length (calls st)))
               sub "preflight-rg" template in
  post w (List.length (calls st)) req
  = Response status_code (Some (JObj payload)) ->
  status_code <> 200%Z ->
  (exists res sku,
      resource_of template = Ok res /\
      subscript res "sku" = Ok sku /\
      subscript sku "name" = Ok (JStr default)) /\
  exists location zones msg,
    step HIGH_RISK_RESOURCES w sub resource st =
    ({| errors :=
          (errors st
           ++ [failure_block (JStr address) location (JStr "unknown") zones msg])%list;
        calls :=
          (calls st
           ++ [(req, Response status_code (Some (JObj payload)))])%list |},
     Ok tt).
Proof.
  intros Hs Ht Hr Hk Ha Hc Hf Hn1 Hn2 Hw template req Hp Hne.
  assert (generate_arm_template resource = Ok template) as Hg.
  { rewrite (generate_arm_template_table _ _ _ _ _ Ht Ha Hc Hf), Hr.
    reflexivity. }
  split.
  - destruct (sku_source_attribute _ _ _ _ Hr Hk) as [-> | ->].
    + eexists; eexists. split; [reflexivity |].
      unfold descriptor_resource, sku_fields. rewrite Hk, Hn1.
      split; reflexivity.
    + eexists; eexists. split; [reflexivity |].
      unfold descriptor_resource, sku_fields. rewrite Hk, Hn2.
      split; reflexivity.
  - destruct (step_selected HIGH_RISK_RESOURCES w sub resource template Hs Hg)
      as (address' & res & location & mapping & zones & sku
          & Ha' & _ & _ & Hm & _ & Hsku & Hstep).
    pose proof (subscript_functional _ _ _ _ Ha Ha') as <-.
    assert (mapping = JObj fields) as ->.
    { rewrite Hc in Hm. cbn [bind] in Hm.
      apply subscript_Ok in Hf as (d & -> & Hd).
      unfold get_default in Hm. rewrite Hd in Hm. congruence. }
    rewrite (sku_of_without_sku _ Hn1 Hn2) in Hsku. injection Hsku as <-.
    rewrite Hstep, Hw. cbv zeta. fold template. fold req. rewrite Hp.
    unfold read_response. apply Z.eqb_neq in Hne. rewrite Hne.
    unfold get_default.
    destruct (dict_get "error" payload); cbn [bind]; eauto.
Qed.

Lemma report_says_unknown_where_template_defaults_witness :
  exists location zones msg,
    step HIGH_RISK_RESOURCES (constant_world 400 sku_not_available) "sub"
      (record "azurerm_firewall" "azurerm_firewall.fw" ["create"] (JObj []))
      initial =
    ({| errors :=
          [failure_block (JStr "azurerm_firewall.fw") location (JStr "unknown")
             zones msg];
        calls :=
          [(validate_request "token" "00000000-0000-4000-8000-000000000000"
              "sub" "preflight-rg"
              (descriptor
                 {| provider_type := "Microsoft.Network/azureFirewalls";
                    sku_source := Some ("sku_name", "AZFW_VNet");
                    sku_tier := Some "Standard" |}
                 "azurerm_firewall.fw" []),
            Response 400 (Some sku_not_available))] |},
     Ok tt).
Proof.
  refine (proj2 (report_says_unknown_where_template_defaults
                   (constant_world 400 sku_not_available) "sub"
                   (record "azurerm_firewall" "azurerm_firewall.fw" ["create"]
                      (JObj []))
                   (JObj [("actions", JArr [JStr "create"]); ("after", JObj [])])
                   "azurerm_firewall" "azurerm_firewall.fw" "sku_name"
                   "AZFW_VNet" "token"
                   {| provider_type := "Microsoft.Network/azureFirewalls";
                      sku_source := Some ("sku_name", "AZFW_VNet");
                      sku_tier := Some "Standard" |}
                   [] [("error", JObj [("code", JStr "SkuNotAvailable")])]
                   400%Z initial _ _ _ _ _ _ _ _ _ _ _ _));
    try (vm_compute; reflexivity).
  discriminate.
Defined.

(** ** Accounting of requests *)

Lemma read_response_answered (req : request) (resp : response) (b : bool)
    (msg : string) :
  read_response resp = Ok (b, msg) -> answered_200 (req, resp) = b.
Proof.
  unfold answered_200; cbn [snd].
  destruct resp as [what | status_code [payload |]]; simpl; try discriminate.
  destruct (status_code =? 200)%Z; [congruence |].
  intros H. apply bind_Ok in H as (error & _ & H). congruence.
Qed.

Lemma posted_template_validate_request (token uuid sub group : string)
    (template : json) (resp : response) :
  posted_template (validate_request token uuid sub group template, resp)
  = Ok template.
Proof. reflexivity. Qed.

Lemma selected_true (high_risk : list string) (resource : json) :
  selected high_risk resource = true <-> in_scope high_risk resource = Ok true.
Proof.
  unfold selected. destruct (in_scope high_risk resource) as [[|] | e];
    split; congruence.
Qed.

Section Accounting.

Variable high_risk : list string.
Variable w : world.
Variable sub : string.

(** Whatever the loop body does, it posts nothing or one request, the
    validation request of the record's template, and it only adds to
    [errors]. *)
Lemma step_calls (resource : json) (st st' : state) (res : result unit) :
  step high_risk w sub resource st = (st', res) ->
  (exists more, errors st' = (errors st ++ more)%list) /\
  (calls st' = calls st \/
   exists token template resp,
     generate_arm_template resource = Ok template /\
     calls st' =
     (calls st
      ++ [(validate_request token (uuid4 w (List.length (calls st))) sub
             "preflight-rg" template, resp)])%list).
Proof.
  intros H.
  assert (forall s : state, exists more, errors s = (errors s ++ more)%list)
    as same by (intros s; exists []; symmetry; apply app_nil_r).
  destruct (in_scope high_risk resource) as [[|] | e] eqn:Hs.
  - destruct (generate_arm_template resource) as [template | e] eqn:Hg.
    + destruct (step_selected high_risk w sub resource template Hs Hg)
        as (address & res0 & location & after & zones & sku
            & _ & _ & _ & _ & _ & _ & Hstep).
      rewrite Hstep in H.
      destruct (get_token w (List.length (calls st))) as [token | what].
      * cbv zeta in H.
        destruct (read_response _) as [[[|] msg] | e];
          inversion H; subst; cbn [errors calls];
          (split; [first [apply (same st) | eexists; reflexivity] |]);
          right; exists token, template; eexists; split; reflexivity.
      * inversion H; subst. split; [apply same | left; reflexivity].
    + rewrite (step_synthesis_raises _ _ _ _ _ _ Hs Hg) in H.
      inversion H; subst. split; [apply same | left; reflexivity].
  - rewrite (step_not_selected _ _ _ _ _ Hs) in H.
    inversion H; subst. split; [apply same | left; reflexivity].
  - rewrite (step_in_scope_raises _ _ _ _ _ _ Hs) in H.
    inversion H; subst. split; [apply same | left; reflexivity].
Qed.

Lemma numbered_app (k : nat) (a b : list (request * response)) :
  numbered w sub k (a ++ b)%list <->
  numbered w sub k a /\ numbered w sub (k + List.length a) b.
Proof.
  revert k. induction a as [| c a IH]; intros k; cbn [app numbered List.length].
  - rewrite Nat.add_0_r. tauto.
  - rewrite IH. replace (S k + List.length a)%nat
      with (k + S (List.length a))%nat by lia. tauto.
Qed.

Lemma step_numbered (resource : json) (st st' : state) (res : result unit) :
  step high_risk w sub resource st = (st', res) ->
  numbered w sub 0 (calls st) ->
  numbered w sub 0 (calls st') /\
  (List.length (calls st') <= S (List.length (calls st)))%nat.
Proof.
  intros H N. apply step_calls in H as (_ & [E | (token & template & resp & _ & E)]);
    rewrite E.
  - split; [exact N | lia].
  - split.
    + apply numbered_app. split; [exact N |]. cbn [numbered fst]. split; [| exact I].
      exists token, template. reflexivity.
    + rewrite length_app. cbn [List.length]. lia.
Qed.

Lemma for_each_numbered (l : list json) : forall st st' res,
  for_each high_risk w sub l st = (st', res) ->
  numbered w sub 0 (calls st) ->
  numbered w sub 0 (calls st') /\
  (List.length (calls st') <= List.length (calls st) + List.length l)%nat.
Proof.
  induction l as [| resource l IH]; intros st st' res H N.
  - inversion H; subst. split; [exact N | lia].
  - rewrite for_each_cons in H.
    destruct (step high_risk w sub resource st) as [st1 [[] | e]] eqn:Hs.
    + destruct (step_numbered _ _ _ _ Hs N) as (N1 & L1).
      destruct (IH _ _ _ H N1) as (N2 & L2).
      split; [exact N2 | cbn [List.length]; lia].
    + inversion H; subst.
      destruct (step_numbered _ _ _ _ Hs N) as (N1 & L1).
      split; [exact N1 | cbn [List.length]; lia].
Qed.

(** In a pass of the loop body that does not raise, a request is posted
    exactly for a selected record, with its template, and an entry is added
    to [errors] exactly when the answer is not a 200. *)
Lemma step_Ok_account (resource : json) (st st' : state) :
  step high_risk w sub resource st = (st', Ok tt) ->
  exists new_calls new_errors,
    calls st' = (calls st ++ new_calls)%list /\
    errors st' = (errors st ++ new_errors)%list /\
    map posted_template new_calls =
    (if selected high_risk resource
     then [generate_arm_template resource] else []) /\
    List.length new_errors =
    List.length (filter (fun c => negb (answered_200 c)) new_calls).
Proof.
  intros H. unfold selected.
  destruct (in_scope high_risk resource) as [[|] | e] eqn:Hs.
  - destruct (generate_arm_template resource) as [template | e] eqn:Hg.
    + destruct (step_selected high_risk w sub resource template Hs Hg)
        as (address & res0 & location & after & zones & sku
            & _ & _ & _ & _ & _ & _ & Hstep).
      rewrite Hstep in H.
      destruct (get_token w (List.length (calls st))) as [token | what];
        [| discriminate].
      cbv zeta in H.
      set (req := validate_request token (uuid4 w (List.length (calls st)))
                    sub "preflight-rg" template) in *.
      set (resp := post w (List.length (calls st)) req) in *.
      destruct (read_response resp) as [[[|] msg] | e] eqn:Hr;
        inversion H; subst; clear H; cbn [calls errors].
      * exists [(req, resp)], []. split; [reflexivity |].
        split; [symmetry; apply app_nil_r |]. split; [reflexivity |].
        cbn [filter]. rewrite (read_response_answered req _ _ _ Hr).
        reflexivity.
      * exists [(req, resp)], [failure_block address location sku zones msg].
        split; [reflexivity |]. split; [reflexivity |]. split; [reflexivity |].
        cbn [filter]. rewrite (read_response_answered req _ _ _ Hr).
        reflexivity.
    + rewrite (step_synthesis_raises _ _ _ _ _ _ Hs Hg) in H. discriminate.
  - rewrite (step_not_selected _ _ _ _ _ Hs) in H. inversion H; subst.
    exists [], []. rewrite !app_nil_r. repeat split.
  - rewrite (step_in_scope_raises _ _ _ _ _ _ Hs) in H. discriminate.
Qed.

Lemma for_each_Ok_account (l : list json) : forall st st',
  for_each high_risk w sub l st = (st', Ok tt) ->
  exists new_calls new_errors,
    calls st' = (calls st ++ new_calls)%list /\
    errors st' = (errors st ++ new_errors)%list /\
    map posted_template new_calls =
    map generate_arm_template (filter (selected high_risk) l) /\
    List.length new_errors =
    List.length (filter (fun c => negb (answered_200 c)) new_calls).
Proof.
  induction l as [| resource l IH]; intros st st' H.
  - inversion H; subst. exists [], []. rewrite !app_nil_r. repeat split.
  - rewrite for_each_cons in H.
    destruct (step high_risk w sub resource st) as [st1 [[] | e]] eqn:Hs;
      [| discriminate].
    apply step_Ok_account in Hs as (c1 & e1 & Hc1 & He1 & T1 & L1).
    apply IH in H as (c2 & e2 & Hc2 & He2 & T2 & L2).
    exists (c1 ++ c2)%list, (e1 ++ e2)%list.
    rewrite Hc2, He2, Hc1, He1, <- !app_assoc.
    split; [reflexivity |]. split; [reflexivity |]. split.
    + rewrite map_app, T1, T2. cbn [filter].
      destruct (selected high_risk resource); reflexivity.
    + rewrite filter_app, !length_app, L1, L2. reflexivity.
Qed.

End Accounting.

Lemma requests_numbered_from_zero (w : world) (sub : string) (plan : json)
    (records : list json) :
  resource_changes plan = Ok records ->
  numbered w sub 0 (validations (preflight w sub plan)).
Proof.
  unfold preflight. intros Hp. rewrite (run_unfold _ _ _ _ _ Hp).
  destruct (for_each HIGH_RISK_RESOURCES w sub records initial)
    as [st res] eqn:Hl.
  destruct (for_each_numbered _ _ _ _ _ _ _ Hl I) as (N & _).
  destruct res as [[] | e]; [destruct (errors st) |]; exact N.
Qed.

Lemma filter_negb_length {A} (f : A -> bool) (l : list A) :
  List.length (filter (fun x => negb (f x)) l) = 0%nat <-> forallb f l = true.
Proof.
  induction l as [| x l IH]; cbn [filter forallb List.length]; [tauto |].
  destruct (f x); cbn [negb andb List.length]; [exact IH |].
  split; discriminate.
Qed.

(** X7. In a run that reaches the verdict, the requests posted are, in the
    order of the plan, the validation requests of the selected records'
    templates: one request for each selected record, none for any other. *)
Theorem every_selected_record_validated_once (w : world) (sub : string)
    (plan : json) (records : list json) :
  resource_changes plan = Ok records ->
  uncaught (preflight w sub plan) = None ->
  map posted_template (validations (preflight w sub plan)) =
  map generate_arm_template (filter (selected HIGH_RISK_RESOURCES) records) /\
  List.length (validations (preflight w sub plan)) =
  List.length (filter (selected HIGH_RISK_RESOURCES) records).
Proof.
  unfold preflight. intros Hp Hu. rewrite (run_unfold _ _ _ _ _ Hp) in *.
  destruct (for_each HIGH_RISK_RESOURCES w sub records initial)
    as [st [[] | e]] eqn:Hl; [| discriminate].
  apply for_each_Ok_account in Hl as (c & e & Hc & _ & T & _).
  cbn [initial calls app] in Hc.
  assert (map posted_template (calls st) =
          map generate_arm_template
            (filter (selected HIGH_RISK_RESOURCES) records)) as E
      by (rewrite Hc; exact T).
  destruct (errors st); cbn [validations]; (split; [exact E |]);
    rewrite <- (length_map posted_template), E, length_map; reflexivity.
Qed.

Lemma every_selected_record_validated_once_witness :
  map posted_template
    (validations (preflight (constant_world 400 sku_not_available) "sub"
                    (plan_of [lb_delete; firewall_hub]))) =
  map generate_arm_template
    (filter (selected HIGH_RISK_RESOURCES) [lb_delete; firewall_hub]) /\
  List.length
    (validations (preflight (constant_world 400 sku_not_available) "sub"
                    (plan_of [lb_delete; firewall_hub]))) =
  List.length (filter (selected HIGH_RISK_RESOURCES) [lb_delete; firewall_hub]).
Proof.
  refine (every_selected_record_validated_once _ _ _ _ _ _);
    vm_compute; reflexivity.
Defined.

(** X8. Every request a run posts, whether the run reaches the verdict or
    not, is a validation request for the subscription given to the run, in
    the resource group [preflight-rg], named after the identifier the world
    gave for its rank; and a run posts at most one request per record of
    the plan: nothing is retried. *)
Theorem requests_target_the_subscription (w : world) (sub : string)
    (plan : json) (records : list json) :
  resource_changes plan = Ok records ->
  numbered w sub 0 (validations (preflight w sub plan)) /\
  (List.length (validations (preflight w sub plan)) <= List.length records)%nat.
Proof.
  unfold preflight. intros Hp. rewrite (run_unfold _ _ _ _ _ Hp).
  destruct (for_each HIGH_RISK_RESOURCES w sub records initial)
    as [st res] eqn:Hl.
  destruct (for_each_numbered _ _ _ _ _ _ _ Hl I) as (N & L).
  cbn [initial calls List.length] in L.
  destruct res as [[] | e]; [destruct (errors st) |]; cbn [validations];
    split; assumption.
Qed.

Lemma requests_target_the_subscription_witness :
  numbered (constant_world 400 sku_not_available) "sub" 0
    (validations (preflight (constant_world 400 sku_not_available) "sub"
                    (plan_of [lb_delete; firewall_hub]))) /\
  (List.length
     (validations (preflight (constant_world 400 sku_not_available) "sub"
                     (plan_of [lb_delete; firewall_hub]))) <= 2)%nat.
Proof.
  refine (requests_target_the_subscription _ _ _ [lb_delete; firewall_hub] _).
  vm_compute. reflexivity.
Defined.

(** X9. In a run that reaches the verdict, [errors] has as many entries as
    there were answers other than a 200 with a JSON body, and the exit
    status is 0 exactly when every request was answered that way. *)
Theorem exit_zero_iff_all_200 (w : world) (sub : string) (plan : json) :
  uncaught (preflight w sub plan) = None ->
  List.length (failures (preflight w sub plan)) =
  List.length (filter (fun c => negb (answered_200 c))
                 (validations (preflight w sub plan))) /\
  (exit_code (preflight w sub plan) = 0%Z <->
   forallb answered_200 (validations (preflight w sub plan)) = true).
Proof.
  unfold preflight. intros Hu.
  destruct (resource_changes plan) as [records | e] eqn:Hp.
  2: { rewrite (run_no_plan _ _ _ _ _ Hp) in Hu. discriminate. }
  rewrite (run_unfold _ _ _ _ _ Hp) in *.
  destruct (for_each HIGH_RISK_RESOURCES w sub records initial)
    as [st [[] | e]] eqn:Hl; [| discriminate].
  apply for_each_Ok_account in Hl as (c & e & Hc & He & _ & L).
  cbn [initial calls errors app] in Hc, He. subst c e.
  rewrite <- filter_negb_length.
  destruct (errors st) as [| entry rest];
    cbn [failures validations exit_code]; rewrite <- L; cbn [List.length].
  - split; [reflexivity | split; reflexivity].
  - split; [reflexivity | split; discriminate].
Qed.

Lemma exit_zero_iff_all_200_witness :
  let o := preflight (constant_world 200 (JObj [])) "sub"
             (plan_of [lb_delete; firewall_hub]) in
  List.length (failures o) =
  List.length (filter (fun c => negb (answered_200 c)) (validations o)) /\
  (exit_code o = 0%Z <-> forallb answered_200 (validations o) = true).
Proof.
  refine (exit_zero_iff_all_200 _ _ _ _). vm_compute. reflexivity.
Defined.

(** ** Plans that always reach the verdict *)

Lemma well_formed_in_scope (resource : json) :
  well_formed resource ->
  in_scope HIGH_RISK_RESOURCES resource = Ok false \/
  in_scope HIGH_RISK_RESOURCES resource = Ok true /\
  exists template, generate_arm_template resource = Ok template.
Proof.
  intros (res_type & address & change & acts & Ht & Ha & Hc & Hacts & Hafter).
  rewrite (in_scope_typed _ _ _ _ _ Ht Hc Hacts).
  destruct (py_in (JStr res_type) HIGH_RISK_RESOURCES) eqn:Hin;
    [| left; reflexivity].
  destruct (intersects (map JStr acts) VALID_ACTIONS) eqn:Hi;
    [| left; reflexivity].
  right. split; [reflexivity |].
  apply intersects_strs in Hi. destruct (Hafter Hi) as (fields & Hf).
  rewrite (generate_arm_template_table _ _ _ _ _ Ht Ha Hc Hf).
  apply py_in_str, high_risk_has_rule in Hin.
  destruct (rule_of res_type) as [rule |]; [eauto | congruence].
Qed.

Lemma step_completes (w : world) (sub : string) (resource : json) (st : state) :
  responsive w ->
  well_formed resource ->
  exists st', step HIGH_RISK_RESOURCES w sub resource st = (st', Ok tt).
Proof.
  intros Hw Hr.
  destruct (well_formed_in_scope _ Hr) as [Hs | (Hs & template & Hg)].
  - exists st. apply step_not_selected, Hs.
  - destruct (step_selected HIGH_RISK_RESOURCES w sub resource template Hs Hg)
      as (address & res & location & after & zones & sku
          & _ & _ & _ & _ & _ & _ & Hstep).
    rewrite Hstep.
    destruct (Hw (List.length (calls st))) as ((token & ->) & Hpost).
    cbv zeta.
    destruct (Hpost (validate_request token (uuid4 w (List.length (calls st)))
                       sub "preflight-rg" template))
      as (status_code & fields & ->).
    unfold read_response, get_default.
    destruct (status_code =? 200)%Z; [eauto |].
    destruct (dict_get "error" fields); cbn [bind]; eauto.
Qed.

Lemma for_each_completes (w : world) (sub : string) (l : list json) :
  responsive w ->
  Forall well_formed l ->
  forall st, exists st',
    for_each HIGH_RISK_RESOURCES w sub l st = (st', Ok tt).
Proof.
  intros Hw. induction 1 as [| resource l Hr _ IH]; intros st.
  - exists st. reflexivity.
  - destruct (step_completes w sub resource st Hw Hr) as (st1 & Hs).
    destruct (IH st1) as (st' & Hl).
    exists st'. rewrite for_each_cons, Hs. exact Hl.
Qed.

(** X10. When every record of the plan has a string type and address, a
    list of action names and, if it is to be created or updated, a mapping
    [after], and the world always hands out a token and answers with a JSON
    object, no exception ends the run: the verdict is reached, a rejection
    of one record does not stop the loop, and exactly one request is posted
    for each selected record. *)
Theorem well_formed_plan_reaches_verdict (w : world) (sub : string)
    (plan : json) (records : list json) :
  resource_changes plan = Ok records ->
  Forall well_formed records ->
  responsive w ->
  uncaught (preflight w sub plan) = None /\
  List.length (validations (preflight w sub plan)) =
  List.length (filter (selected HIGH_RISK_RESOURCES) records).
Proof.
  intros Hp Hr Hw.
  assert (uncaught (preflight w sub plan) = None) as Hu.
  { unfold preflight. rewrite (run_unfold _ _ _ _ _ Hp).
    destruct (for_each_completes w sub records Hw Hr initial) as (st' & ->).
    destruct (errors st'); reflexivity. }
  split; [exact Hu |].
  unfold preflight in *. rewrite (run_unfold _ _ _ _ _ Hp) in *.
  destruct (for_each HIGH_RISK_RESOURCES w sub records initial)
    as [st [[] | e]] eqn:Hl; [| discriminate].
  apply for_each_Ok_account in Hl as (c & e & Hc & _ & T & _).
  cbn [initial calls app] in Hc. subst c.
  destruct (errors st); cbn [validations];
    rewrite <- (length_map posted_template), T, length_map; reflexivity.
Qed.

Lemma well_formed_record (type address : string) (actions : list string)
    (fields : dict) :
  well_formed (record type address actions (JObj fields)).
Proof.
  exists type, address,
    (JObj [("actions", JArr (map JStr actions)); ("after", JObj fields)]),
    actions.
  split; [reflexivity |]. split; [reflexivity |]. split; [reflexivity |].
  split; [reflexivity |]. intros _. exists fields. reflexivity.
Qed.

Lemma well_formed_plan_reaches_verdict_witness :
  uncaught (preflight (constant_world 400 sku_not_available) "sub"
              (plan_of [firewall_hub; bastion_without_location])) = None /\
  List.length
    (validations (preflight (constant_world 400 sku_not_available) "sub"
                    (plan_of [firewall_hub; bastion_without_location]))) =
  List.length (filter (selected HIGH_RISK_RESOURCES)
                 [firewall_hub; bastion_without_location]).
Proof.
  refine (well_formed_plan_reaches_verdict _ _ _
            [firewall_hub; bastion_without_location] _ _ _).
  - vm_compute. reflexivity.
  - constructor; [apply well_formed_record |].
    constructor; [apply well_formed_record | constructor].
  - intros n. split.
    + exists "token". reflexivity.
    + intros req. eexists; eexists. reflexivity.
Defined.

(** ** Deployment names *)

Lemma append_inv_head (p a b : string) : p ++ a = p ++ b -> a = b.
Proof.
  induction p as [| x p IH]; simpl; intros H; [exact H |].
  injection H as H. exact (IH H).
Qed.

Lemma append_inv_tail (s : string) : forall a b, a ++ s = b ++ s -> a = b.
Proof.
  induction a as [| x a IH]; intros [| y b] H; simpl in H.
  - reflexivity.
  - exfalso. apply (f_equal String.length) in H. simpl in H.
    rewrite length_append in H. lia.
  - exfalso. apply (f_equal String.length) in H. simpl in H.
    rewrite length_append in H. lia.
  - injection H as -> H. rewrite (IH _ H). reflexivity.
Qed.

Lemma validate_request_url_inj (t1 t2 u1 u2 sub group : string) (p1 p2 : json) :
  req_url (validate_request t1 u1 sub group p1) =
  req_url (validate_request t2 u2 sub group p2) ->
  u1 = u2.
Proof.
  unfold validate_request. cbn [req_url]. intros H.
  do 5 apply append_inv_head in H.
  apply append_inv_tail in H. apply append_inv_head in H. exact H.
Qed.

Lemma numbered_urls (w : world) (sub : string) (cs : list (request * response)) :
  (forall n m, uuid4 w n = uuid4 w m -> n = m) ->
  forall k, numbered w sub k cs ->
    NoDup (map (fun c => req_url (fst c)) cs) /\
    (forall c, In c cs ->
               exists i token template,
                 (k <= i)%nat /\
                 fst c = validate_request token (uuid4 w i) sub
                           "preflight-rg" template).
Proof.
  intros Hinj. induction cs as [| c cs IH]; intros k N; cbn [map].
  - split; [constructor | intros c []].
  - destruct N as ((token & template & Hc) & N).
    destruct (IH _ N) as (ND & Hall).
    split.
    + constructor; [| exact ND].
      intros Hin. apply in_map_iff in Hin as (c' & E & Hin').
      destruct (Hall _ Hin') as (i & token' & template' & Hi & Hc').
      rewrite Hc, Hc' in E. apply validate_request_url_inj in E.
      apply Hinj in E. lia.
    + intros c' [<- | Hin].
      * exists k, token, template. split; [lia | exact Hc].
      * destruct (Hall _ Hin) as (i & token' & template' & Hi & Hc').
        exists i, token', template'. split; [lia | exact Hc'].
Qed.

(** X11. When the world never gives the same identifier twice, no two
    requests of a run have the same URL: every validation is a deployment
    of its own name. *)
Theorem deployment_names_never_repeat (w : world) (sub : string) (plan : json) :
  (forall n m, uuid4 w n = uuid4 w m -> n = m) ->
  NoDup (map (fun c => req_url (fst c)) (validations (preflight w sub plan))).
Proof.
  intros Hinj.
  destruct (resource_changes plan) as [records | e] eqn:Hp.
  - pose proof (requests_numbered_from_zero w sub plan records Hp) as N.
    apply (numbered_urls w sub _ Hinj 0 N).
  - unfold preflight. rewrite (run_no_plan _ _ _ _ _ Hp). constructor.
Qed.

Lemma length_spaces (n : nat) : String.length (spaces n) = n.
Proof. induction n as [| n IH]; simpl; [reflexivity | rewrite IH; reflexivity]. Qed.

Lemma deployment_names_never_repeat_witness :
  NoDup (map (fun c => req_url (fst c))
           (validations (preflight (tally_world 400 sku_not_available) "sub"
                           (plan_of [firewall_hub; firewall_hub])))).
Proof.
  apply deployment_names_never_repeat.
  intros n m H. apply (f_equal String.length) in H.
  cbn [uuid4 tally_world] in H. rewrite !length_spaces in H. exact H.
Defined.

(** ** Records the loop cannot read *)

(** X12. The loop reads [change], [actions] and [type] of every record
    before it knows whether the record is selected. A record without
    [change], with a [null] [actions], or with readable actions and no
    [type], ends the run with the exception of that access, whatever the
    record is about: the exit status is 1, the records after it are not
    looked at, and the failures found before it are not printed. *)
Theorem unreadable_record_ends_the_run (w : world) (sub : string) (plan : json)
    (before after : list json) (fields : dict) (st : state) (e : exn) :
  resource_changes plan = Ok (before ++ JObj fields :: after)%list ->
  for_each HIGH_RISK_RESOURCES w sub before initial = (st, Ok tt) ->
  (dict_get "change" fields = None /\ e = KeyError "change" \/
   (exists change,
       dict_get "change" fields = Some (JObj change) /\
       dict_get "actions" change = Some JNull /\ e = TypeError) \/
   (exists change acts,
       dict_get "change" fields = Some (JObj change) /\
       get_default (JObj change) "actions" (JArr [])
       = Ok (JArr (map JStr acts)) /\
       dict_get "type" fields = None /\ e = KeyError "type")) ->
  preflight w sub plan =
  {| stdout := []; exit_code := 1; uncaught := Some e;
     failures := errors st; validations := calls st |}.
Proof.
  intros Hp Hb Hcase.
  apply (run_raises HIGH_RISK_RESOURCES w sub plan before after (JObj fields)
           st st e Hp Hb).
  apply step_in_scope_raises. unfold in_scope, subscript.
  destruct Hcase as [(Hc & ->) | [(change & Hc & Ha & ->)
                                 | (change & acts & Hc & Ha & Ht & ->)]].
  - rewrite Hc. reflexivity.
  - rewrite Hc. cbn [bind]. unfold get_default. rewrite Ha. reflexivity.
  - rewrite Hc. cbn [bind]. rewrite Ha. cbn [bind].
    unfold py_set. cbn [iterate bind]. rewrite hashable_strs, Ht. reflexivity.
Qed.

Lemma unreadable_record_ends_the_run_witness :
  preflight (constant_world 400 sku_not_available) "sub"
    (plan_of [firewall_hub;
              JObj [("address", JStr "random_pet.name");
                    ("type", JStr "random_pet")];
              lb_delete]) =
  {| stdout := []; exit_code := 1; uncaught := Some (KeyError "change");
     failures :=
       [failure_block (JStr "module.hub.azurerm_firewall.fw[0]") (JStr "westus")
          (JStr "AZFW_Hub") (JArr [])
          (json_dumps (JObj [("code", JStr "SkuNotAvailable")]))];
     validations :=
       [(validate_request "token" "00000000-0000-4000-8000-000000000000" "sub"
           "preflight-rg" firewall_hub_template,
         Response 400 (Some sku_not_available))] |}.
Proof.
  refine (unreadable_record_ends_the_run _ _ _ [firewall_hub] [lb_delete]
            [("address", JStr "random_pet.name"); ("type", JStr "random_pet")]
            {| errors := _; calls := _ |} _ _ _ _).
  - vm_compute. reflexivity.
  - vm_compute. reflexivity.
  - left. split; reflexivity.
Defined.

(** ** Choosing the subscription *)

Lemma print_entries_Ok (items : list json) : forall idx lines,
  print_entries idx items = (lines, Ok tt) ->
  List.length lines = List.length items.
Proof.
  induction items as [| sub items IH]; intros idx lines H; cbn [print_entries] in H.
  - inversion H. reflexivity.
  - destruct (subscription_line idx sub) as [line | e]; [| discriminate].
    destruct (print_entries (idx + 1) items) as [rest r] eqn:E.
    inversion H; subst. cbn [List.length]. f_equal. eapply IH, E.
Qed.

Lemma print_entries_total (items : list json) :
  Forall (fun sub => exists name id,
              subscript sub "displayName" = Ok name /\
              subscript sub "subscriptionId" = Ok id) items ->
  forall idx, exists lines, print_entries idx items = (lines, Ok tt).
Proof.
  induction 1 as [| sub items (name & id & Hn & Hi) _ IH]; intros idx.
  - exists []. reflexivity.
  - destruct (IH (idx + 1)%Z) as (rest & E).
    cbn [print_entries]. unfold subscription_line. rewrite Hn, Hi. cbn [bind].
    rewrite E. eauto.
Qed.

Lemma print_entries_of_text (idx : Z) (s : string) (rest : list json) :
  print_entries idx (JStr s :: rest) = ([], Raise TypeError).
Proof. reflexivity. Qed.

Lemma item_at_list (items : list json) (i : Z) :
  (0 <= i < Z.of_nat (List.length items))%Z ->
  exists sub, nth_error items (Z.to_nat i) = Some sub /\
              item_at (JArr items) i = Ok sub.
Proof.
  intros Hi. unfold item_at. cbv zeta.
  assert ((i <? 0)%Z = false) as E1 by (apply Z.ltb_ge; lia).
  assert ((Z.of_nat (List.length items) <=? i)%Z = false) as E2
      by (apply Z.leb_gt; lia).
  rewrite !E1, E2. cbn [orb].
  destruct (nth_error items (Z.to_nat i)) as [sub |] eqn:E.
  - exists sub. split; reflexivity.
  - apply nth_error_None in E. lia.
Qed.

Lemma choose_Selected (max_digits : nat) (items : list json) (line : string)
    (id : json) :
  choose max_digits (JArr items) (Z.of_nat (List.length items)) line
  = Selected id ->
  exists k sub,
    parse_int max_digits (strip line) = Some k /\
    (1 <= k <= Z.of_nat (List.length items))%Z /\
    nth_error items (Z.to_nat (k - 1)) = Some sub /\
    subscript sub "subscriptionId" = Ok id.
Proof.
  unfold choose. intros H.
  destruct (parse_int max_digits (strip line)) as [k |]; [| discriminate].
  destruct ((k - 1 <? 0) || (Z.of_nat (List.length items) <=? k - 1))%Z eqn:R;
    [discriminate |].
  apply orb_false_iff in R as [R1 R2].
  apply Z.ltb_ge in R1. apply Z.leb_gt in R2.
  destruct (item_at_list items (k - 1)%Z) as (sub & Hn & Hi); [lia |].
  rewrite Hi in H. cbn [bind] in H.
  destruct (subscript sub "subscriptionId") as [id' |] eqn:Hs; [| discriminate].
  exists k, sub. injection H as <-. repeat split; try assumption; lia.
Qed.

Lemma choose_valid (max_digits : nat) (items : list json) (line : string)
    (k : Z) (sub id : json) :
  parse_int max_digits (strip line) = Some k ->
  (1 <= k <= Z.of_nat (List.length items))%Z ->
  nth_error items (Z.to_nat (k - 1)) = Some sub ->
  subscript sub "subscriptionId" = Ok id ->
  choose max_digits (JArr items) (Z.of_nat (List.length items)) line
  = Selected id.
Proof.
  intros Hp Hk Hn Hs. unfold choose. rewrite Hp.
  replace (k - 1 <? 0)%Z with false by (symmetry; apply Z.ltb_ge; lia).
  replace (Z.of_nat (List.length items) <=? k - 1)%Z with false
    by (symmetry; apply Z.leb_gt; lia).
  cbn [orb].
  destruct (item_at_list items (k - 1)%Z) as (sub' & Hn' & ->); [lia |].
  assert (sub' = sub) as -> by congruence.
  cbn [bind]. rewrite Hs. reflexivity.
Qed.

Lemma choose_invalid (max_digits : nat) (subscriptions : json) (n : Z)
    (line : string) :
  parse_int max_digits (strip line) = None \/
  (exists k, parse_int max_digits (strip line) = Some k /\ (k < 1 \/ n < k)%Z) ->
  choose max_digits subscriptions n line = Aborted (RuntimeError invalid_selection).
Proof.
  unfold choose. intros [-> | (k & -> & Hk)]; [reflexivity |].
  replace ((k - 1 <? 0) || (n <=? k - 1))%Z with true; [reflexivity |].
  symmetry. apply orb_true_iff.
  destruct Hk; [left; apply Z.ltb_lt | right; apply Z.leb_le]; lia.
Qed.

Lemma choose_RuntimeError (max_digits : nat) (subscriptions : json) (n : Z)
    (line msg : string) :
  choose max_digits subscriptions n line = Aborted (RuntimeError msg) ->
  msg = invalid_selection /\
  (parse_int max_digits (strip line) = None \/
   exists k, parse_int max_digits (strip line) = Some k /\ (k < 1 \/ n < k)%Z).
Proof.
  unfold choose. intros H.
  destruct (parse_int max_digits (strip line)) as [k |].
  - destruct ((k - 1 <? 0) || (n <=? k - 1))%Z eqn:R.
    + injection H as <-. split; [reflexivity |]. right. exists k.
      split; [reflexivity |].
      apply orb_true_iff in R as [R | R];
        [apply Z.ltb_lt in R | apply Z.leb_le in R]; lia.
    + destruct (sub <- item_at subscriptions (k - 1)%Z ;;
                subscript sub "subscriptionId"); discriminate.
  - injection H as <-. auto.
Qed.

(** Every way [select_subscription] can end. *)
Lemma select_subscription_cases (c : console) (lines : list string)
    (sel : selection) :
  select_subscription c = (lines, sel) ->
  (exists e, sel = Aborted (Propagated e)) \/
  (lines = [] /\ sel = Aborted (RuntimeError no_subscriptions) /\
   exists token status_code body v,
     credential c = Token token /\
     list_subscriptions c subscriptions_url
       [("Authorization", "Bearer " ++ token)]
     = GetResponse status_code (Some body) /\
     get_default body "value" (JArr []) = Ok v /\ truthy v = false) \/
  (exists token status_code body items entry_lines line,
     credential c = Token token /\
     list_subscriptions c subscriptions_url
       [("Authorization", "Bearer " ++ token)]
     = GetResponse status_code (Some body) /\
     get_default body "value" (JArr []) = Ok (JArr items) /\
     print_entries 1 items = (entry_lines, Ok tt) /\
     lines = available_header :: entry_lines /\
     read_line c (selection_prompt (Z.of_nat (List.length items))) = Typed line /\
     sel = choose (int_max_str_digits c) (JArr items)
             (Z.of_nat (List.length items)) line).
Proof.
  unfold select_subscription. intros H.
  destruct (credential c) as [token | what];
    [| inversion H; left; eauto].
  destruct (list_subscriptions c subscriptions_url _)
    as [what | status_code payload] eqn:Hget;
    [inversion H; left; eauto |].
  destruct ((400 <=? status_code) && (status_code <? 600))%Z;
    [inversion H; left; eauto |].
  destruct payload as [body |]; [| inversion H; left; eauto].
  destruct (get_default body "value" (JArr [])) as [v | e] eqn:Hv;
    [| inversion H; left; eauto].
  destruct (truthy v) eqn:Htruthy; cbn [negb] in H.
  2: { inversion H; subst. right. left. repeat split.
       exists token, status_code, body, v. auto. }
  destruct v as [| b | n | r | s | items | d]; cbn [iterate] in H;
    try (inversion H; left; eauto; fail).
  - destruct s as [| a s]; [discriminate |]. cbn [chars] in H.
    rewrite print_entries_of_text in H. inversion H; left; eauto.
  - destruct (print_entries 1 items) as [entry_lines [[] | e]] eqn:Hprint;
      [| inversion H; left; eauto].
    cbn [py_len] in H.
    destruct (read_line c (selection_prompt (Z.of_nat (List.length items))))
      as [line | what] eqn:Hread; [| inversion H; left; eauto].
    inversion H; subst. right. right.
    exists token, status_code, body, items, entry_lines, line.
    repeat split; auto.
  - destruct d as [| [k x] d]; [discriminate |]. cbn [keys map] in H.
    rewrite print_entries_of_text in H. inversion H; left; eauto.
Qed.

(** X13. [select_subscription] only ever returns the identifier of a
    subscription it listed: when it returns, the line typed, stripped of
    white space, reads as an integer [k] between 1 and the number of
    subscriptions fetched, the value returned is the [subscriptionId] of
    the [k]-th of them, and what was printed is the header and one line per
    subscription. *)
Theorem selection_is_a_listed_subscription (c : console) (lines : list string)
    (id : json) :
  select_subscription c = (lines, Selected id) ->
  exists token status_code body items line k sub,
    credential c = Token token /\
    list_subscriptions c subscriptions_url
      [("Authorization", "Bearer " ++ token)]
    = GetResponse status_code (Some body) /\
    get_default body "value" (JArr []) = Ok (JArr items) /\
    read_line c (selection_prompt (Z.of_nat (List.length items))) = Typed line /\
    parse_int (int_max_str_digits c) (strip line) = Some k /\
    (1 <= k <= Z.of_nat (List.length items))%Z /\
    nth_error items (Z.to_nat (k - 1)) = Some sub /\
    subscript sub "subscriptionId" = Ok id /\
    List.length lines = S (List.length items).
Proof.
  intros H.
  apply select_subscription_cases in H
    as [(e & H) | [(_ & H & _) | (token & status_code & body & items
                                   & entry_lines & line & Hc & Hg & Hv & Hp
                                   & -> & Hr & Hsel)]];
    try discriminate.
  symmetry in Hsel. apply choose_Selected in Hsel as (k & sub & Hk & Hrange & Hn & Hs).
  exists token, status_code, body, items, line, k, sub.
  repeat split; try assumption; try lia.
  cbn [List.length]. f_equal. eapply print_entries_Ok, Hp.
Qed.

Lemma selection_is_a_listed_subscription_witness :
  exists token status_code body items line k sub,
    credential (console_typing two_subscriptions " 2 ") = Token token /\
    list_subscriptions (console_typing two_subscriptions " 2 ")
      subscriptions_url [("Authorization", "Bearer " ++ token)]
    = GetResponse status_code (Some body) /\
    get_default body "value" (JArr []) = Ok (JArr items) /\
    read_line (console_typing two_subscriptions " 2 ")
      (selection_prompt (Z.of_nat (List.length items))) = Typed line /\
    parse_int (int_max_str_digits (console_typing two_subscriptions " 2 "))
      (strip line) = Some k /\
    (1 <= k <= Z.of_nat (List.length items))%Z /\
    nth_error items (Z.to_nat (k - 1)) = Some sub /\
    subscript sub "subscriptionId" = Ok (JStr "sub-prod") /\
    List.length
      ["Available subscriptions:"; "1. Development (sub-dev)";
       "2. Production (sub-prod)"] = S (List.length items).
Proof.
  refine (selection_is_a_listed_subscription
            (console_typing two_subscriptions " 2 ") _ (JStr "sub-prod") _).
  vm_compute. reflexivity.
Defined.

(** X14. [select_subscription] raises [RuntimeError] in two situations and
    with two messages only: before anything is printed, when the answer has
    no [value] or an empty one; and after the list was printed and a line
    was typed, when that line, stripped, is not an integer between 1 and
    the number of subscriptions. Zero, negative numbers and numbers beyond
    the list are refused: none reaches the list as an index. *)
Theorem runtime_error_has_two_causes (c : console) (lines : list string)
    (msg : string) :
  select_subscription c = (lines, Aborted (RuntimeError msg)) ->
  (msg = no_subscriptions /\ lines = [] /\
   exists token status_code body v,
     credential c = Token token /\
     list_subscriptions c subscriptions_url
       [("Authorization", "Bearer " ++ token)]
     = GetResponse status_code (Some body) /\
     get_default body "value" (JArr []) = Ok v /\ truthy v = false) \/
  (msg = invalid_selection /\
   exists token status_code body items line,
     credential c = Token token /\
     list_subscriptions c subscriptions_url
       [("Authorization", "Bearer " ++ token)]
     = GetResponse status_code (Some body) /\
     get_default body "value" (JArr []) = Ok (JArr items) /\
     List.length lines = S (List.length items) /\
     read_line c (selection_prompt (Z.of_nat (List.length items))) = Typed line /\
     (parse_int (int_max_str_digits c) (strip line) = None \/
      exists k, parse_int (int_max_str_digits c) (strip line) = Some k /\
                (k < 1 \/ Z.of_nat (List.length items) < k)%Z)).
Proof.
  intros H.
  apply select_subscription_cases in H
    as [(e & H) | [(-> & H & Hex) | (token & status_code & body & items
                                     & entry_lines & line & Hc & Hg & Hv & Hp
                                     & -> & Hr & Hsel)]].
  - discriminate.
  - injection H as ->. left. auto.
  - symmetry in Hsel. apply choose_RuntimeError in Hsel as (-> & Hbad).
    right. split; [reflexivity |].
    exists token, status_code, body, items, line.
    repeat split; try assumption.
    cbn [List.length]. f_equal. eapply print_entries_Ok, Hp.
Qed.

Lemma runtime_error_has_two_causes_witness :
  (invalid_selection = no_subscriptions /\
   ["Available subscriptions:"; "1. Development (sub-dev)";
    "2. Production (sub-prod)"] = [] /\
   exists token status_code body v,
     credential (console_typing two_subscriptions "0") = Token token /\
     list_subscriptions (console_typing two_subscriptions "0")
       subscriptions_url [("Authorization", "Bearer " ++ token)]
     = GetResponse status_code (Some body) /\
     get_default body "value" (JArr []) = Ok v /\ truthy v = false) \/
  (invalid_selection = invalid_selection /\
   exists token status_code body items line,
     credential (console_typing two_subscriptions "0") = Token token /\
     list_subscriptions (console_typing two_subscriptions "0")
       subscriptions_url [("Authorization", "Bearer " ++ token)]
     = GetResponse status_code (Some body) /\
     get_default body "value" (JArr []) = Ok (JArr items) /\
     List.length
       ["Available subscriptions:"; "1. Development (sub-dev)";
        "2. Production (sub-prod)"] = S (List.length items) /\
     read_line (console_typing two_subscriptions "0")
       (selection_prompt (Z.of_nat (List.length items))) = Typed line /\
     (parse_int (int_max_str_digits (console_typing two_subscriptions "0"))
        (strip line) = None \/
      exists k,
        parse_int (int_max_str_digits (console_typing two_subscriptions "0"))
          (strip line) = Some k /\
        (k < 1 \/ Z.of_nat (List.length items) < k)%Z)).
Proof.
  refine (runtime_error_has_two_causes
            (console_typing two_subscriptions "0") _ invalid_selection _).
  vm_compute. reflexivity.
Defined.

Lemma select_subscription_listing (c : console) (token : string)
    (status_code : Z) (body : json) (items : list json)
    (entry_lines : list string) :
  credential c = Token token ->
  list_subscriptions c subscriptions_url [("Authorization", "Bearer " ++ token)]
  = GetResponse status_code (Some body) ->
  (status_code < 400 \/ 600 <= status_code)%Z ->
  get_default body "value" (JArr []) = Ok (JArr items) ->
  items <> [] ->
  print_entries 1 items = (entry_lines, Ok tt) ->
  select_subscription c =
  (available_header :: entry_lines,
   match read_line c (selection_prompt (Z.of_nat (List.length items))) with
   | NoInput what => Aborted (Propagated (External what))
   | Typed line =>
       choose (int_max_str_digits c) (JArr items)
         (Z.of_nat (List.length items)) line
   end).
Proof.
  intros Hc Hg Hs Hv Hne Hp. unfold select_subscription.
  rewrite Hc, Hg.
  replace ((400 <=? status_code) && (status_code <? 600))%Z with false.
  2: { symmetry. apply andb_false_iff.
       destruct Hs; [left; apply Z.leb_gt | right; apply Z.ltb_ge]; lia. }
  rewrite Hv. destruct items as [| sub items]; [congruence |].
  cbn [truthy negb iterate py_len]. rewrite Hp. reflexivity.
Qed.

(** X15. When the answer lists at least one subscription and every entry
    has a [displayName] and a [subscriptionId], the function prints the
    header and one line per entry, and a typed line decides the rest: if,
    stripped, it reads as an integer [k] between 1 and the number of
    entries, the [subscriptionId] of the [k]-th entry is returned; if not,
    [RuntimeError] is raised with the message of an invalid selection. *)
Theorem typed_number_selects_that_entry (c : console) (token line : string)
    (status_code : Z) (body : json) (items : list json) :
  credential c = Token token ->
  list_subscriptions c subscriptions_url [("Authorization", "Bearer " ++ token)]
  = GetResponse status_code (Some body) ->
  (status_code < 400 \/ 600 <= status_code)%Z ->
  get_default body "value" (JArr []) = Ok (JArr items) ->
  items <> [] ->
  Forall (fun sub => exists name id,
              subscript sub "displayName" = Ok name /\
              subscript sub "subscriptionId" = Ok id) items ->
  read_line c (selection_prompt (Z.of_nat (List.length items))) = Typed line ->
  exists entry_lines,
    List.length entry_lines = List.length items /\
    (forall k sub id,
        parse_int (int_max_str_digits c) (strip line) = Some k ->
        (1 <= k <= Z.of_nat (List.length items))%Z ->
        nth_error items (Z.to_nat (k - 1)) = Some sub ->
        subscript sub "subscriptionId" = Ok id ->
        select_subscription c = (available_header :: entry_lines, Selected id)) /\
    (parse_int (int_max_str_digits c) (strip line) = None \/
     (exists k, parse_int (int_max_str_digits c) (strip line) = Some k /\
                (k < 1 \/ Z.of_nat (List.length items) < k)%Z) ->
     select_subscription c =
     (available_header :: entry_lines, Aborted (RuntimeError invalid_selection))).
Proof.
  intros Hc Hg Hs Hv Hne Hall Hr.
  destruct (print_entries_total items Hall 1%Z) as (entry_lines & Hp).
  exists entry_lines. split; [eapply print_entries_Ok, Hp |].
  pose proof (select_subscription_listing c token status_code body items
                entry_lines Hc Hg Hs Hv Hne Hp) as E.
  rewrite Hr in E. split.
  - intros k sub id Hk Hrange Hn Hid. rewrite E.
    rewrite (choose_valid _ _ _ _ _ _ Hk Hrange Hn Hid). reflexivity.
  - intros Hbad. rewrite E, (choose_invalid _ _ _ _ Hbad). reflexivity.
Qed.

Lemma typed_number_selects_that_entry_witness :
  exists entry_lines,
    select_subscription (console_typing two_subscriptions "+0_1") =
    (available_header :: entry_lines, Selected (JStr "sub-dev")).
Proof.
  destruct (typed_number_selects_that_entry
              (console_typing two_subscriptions "+0_1") "token" "+0_1" 200
              two_subscriptions
              [JObj [("displayName", JStr "Development");
                     ("subscriptionId", JStr "sub-dev")];
               JObj [("displayName", JStr "Production");
                     ("subscriptionId", JStr "sub-prod")]]
              eq_refl eq_refl (or_introl eq_refl) eq_refl
              ltac:(discriminate)
              ltac:(repeat constructor; eexists; eexists; split; reflexivity)
              eq_refl)
    as (entry_lines & _ & Hsel & _).
  exists entry_lines.
  apply (Hsel 1%Z (JObj [("displayName", JStr "Development");
                         ("subscriptionId", JStr "sub-dev")])).
  - vm_compute. reflexivity.
  - cbn [List.length]. lia.
  - reflexivity.
  - reflexivity.
Defined.

(** ** The whole script *)

Lemma numbered_In (w : world) (sub : string) (cs : list (request * response)) :
  forall k c,
    numbered w sub k cs -> In c cs ->
    exists token uuid template,
      fst c = validate_request token uuid sub "preflight-rg" template.
Proof.
  induction cs as [| c0 cs IH]; intros k c N Hin; [destruct Hin |].
  destruct N as ((token & template & Hc) & N).
  destruct Hin as [<- | Hin]; [eauto | eapply IH; eassumption].
Qed.

Lemma preflight_exit_zero (w : world) (sub : string) (plan : json) :
  exit_code (preflight w sub plan) = 0%Z ->
  uncaught (preflight w sub plan) = None /\
  stdout (preflight w sub plan) = [passed_line] /\
  failures (preflight w sub plan) = [] /\
  forallb answered_200 (validations (preflight w sub plan)) = true.
Proof.
  unfold preflight. intros H.
  destruct (resource_changes plan) as [records | e] eqn:Hp.
  2: { rewrite (run_no_plan _ _ _ _ _ Hp) in H. discriminate. }
  rewrite (run_unfold _ _ _ _ _ Hp) in *.
  destruct (for_each HIGH_RISK_RESOURCES w sub records initial)
    as [st [[] | e]] eqn:Hl; [| discriminate].
  apply for_each_Ok_account in Hl as (c & e & Hc & He & _ & L).
  cbn [initial calls errors app] in Hc, He. subst c e.
  destruct (errors st) as [| entry rest]; [| discriminate].
  cbn [uncaught stdout failures validations]. repeat split.
  apply filter_negb_length. symmetry. exact L.
Qed.

(** X16. The script posts a request only when the plan file is there and a
    subscription was selected, and every request it posts is a validation
    request for that subscription, in the resource group [preflight-rg]. *)
Theorem main_posts_for_the_selected_subscription (c : console) (w : world)
    (tfplan : option json) (req : request) (resp : response) :
  In (req, resp) (posted (main c w tfplan)) ->
  exists plan lines id token uuid template,
    tfplan = Some plan /\
    select_subscription c = (lines, Selected id) /\
    req = validate_request token uuid (py_str id) "preflight-rg" template.
Proof.
  unfold main. intros Hin.
  destruct tfplan as [plan |]; [| destruct Hin].
  destruct (select_subscription c) as [lines [id | e]] eqn:Hsel;
    [| destruct Hin].
  cbn [posted] in Hin.
  destruct (resource_changes plan) as [records | e] eqn:Hp.
  - pose proof (requests_numbered_from_zero w (py_str id) plan records Hp) as N.
    destruct (numbered_In _ _ _ _ _ N Hin) as (token & uuid & template & E).
    exists plan, lines, id, token, uuid, template. auto.
  - unfold preflight in Hin. rewrite (run_no_plan _ _ _ _ _ Hp) in Hin.
    destruct Hin.
Qed.

Lemma main_posts_for_the_selected_subscription_witness :
  exists plan lines id token uuid template,
    Some (plan_of [firewall_hub]) = Some plan /\
    select_subscription (console_typing two_subscriptions "2")
    = (lines, Selected id) /\
    validate_request "token" "00000000-0000-4000-8000-000000000000" "sub-prod"
      "preflight-rg" firewall_hub_template
    = validate_request token uuid (py_str id) "preflight-rg" template.
Proof.
  refine (main_posts_for_the_selected_subscription
            (console_typing two_subscriptions "2")
            (constant_world 200 (JObj [])) (Some (plan_of [firewall_hub]))
            _ (Response 200 (Some (JObj []))) _).
  vm_compute. left. reflexivity.
Defined.

(** X17. The script exits with status 0 only when everything went through:
    the plan file was there, a subscription was selected, no exception ended
    the loop, every request was answered with a 200, and the last line
    printed, after those of the selection, says that validation passed. *)
Theorem main_exit_zero (c : console) (w : world) (tfplan : option json) :
  status (main c w tfplan) = 0%Z ->
  exists plan lines id,
    tfplan = Some plan /\
    select_subscription c = (lines, Selected id) /\
    uncaught (preflight w (py_str id) plan) = None /\
    forallb answered_200 (posted (main c w tfplan)) = true /\
    printed (main c w tfplan) = (lines ++ [passed_line])%list.
Proof.
  unfold main. intros H.
  destruct tfplan as [plan |]; [| discriminate].
  destruct (select_subscription c) as [lines [id | e]] eqn:Hsel;
    [| discriminate].
  cbn [status posted printed] in *.
  apply preflight_exit_zero in H as (Hu & Hout & _ & Hall).
  exists plan, lines, id. rewrite Hout. auto.
Qed.

Lemma main_exit_zero_witness :
  exists plan lines id,
    Some (plan_of [lb_delete; firewall_hub]) = Some plan /\
    select_subscription (console_typing two_subscriptions "2")
    = (lines, Selected id) /\
    uncaught (preflight (constant_world 200 (JObj [])) (py_str id) plan) = None /\
    forallb answered_200
      (posted (main (console_typing two_subscriptions "2")
                 (constant_world 200 (JObj []))
                 (Some (plan_of [lb_delete; firewall_hub])))) = true /\
    printed (main (console_typing two_subscriptions "2")
               (constant_world 200 (JObj []))
               (Some (plan_of [lb_delete; firewall_hub])))
    = (lines ++ [passed_line])%list.
Proof.
  refine (main_exit_zero (console_typing two_subscriptions "2")
            (constant_world 200 (JObj []))
            (Some (plan_of [lb_delete; firewall_hub])) _).
  vm_compute. reflexivity.
Defined.

(** ** The order of the report *)

Lemma step_Ok_entry (high_risk : list string) (w : world) (sub : string)
    (resource : json) (st st' : state) :
  step high_risk w sub resource st = (st', Ok tt) ->
  exists new_errors,
    errors st' = (errors st ++ new_errors)%list /\
    (new_errors = [] \/
     exists entry c,
       new_errors = [entry] /\ reported high_risk sub [resource] entry c).
Proof.
  intros H. pose proof (step_calls _ _ _ _ _ _ _ H) as (_ & Hcalls).
  apply step_Ok in H as (c1 & e1 & Hc1 & He1 & F1).
  exists e1. split; [exact He1 |].
  assert (c1 = [] \/ exists x, c1 = [x]) as [-> | (x & ->)].
  { destruct Hcalls as [E | (token & template & resp & _ & E)];
      rewrite E in Hc1.
    - left. rewrite <- (app_nil_r (calls st)) in Hc1 at 1.
      apply app_inv_head in Hc1. congruence.
    - right. apply app_inv_head in Hc1. eauto. }
  - inversion F1. left; reflexivity.
  - cbn [filter] in F1. destruct (rejected x).
    + inversion F1 as [| entry c es cs R F1' E1 E2]; subst.
      inversion F1'; subst. right. eauto.
    + inversion F1. left; reflexivity.
Qed.

Lemma for_each_in_plan_order (high_risk : list string) (w : world)
    (sub : string) (l : list json) : forall st st',
  for_each high_risk w sub l st = (st', Ok tt) ->
  exists new_errors failed,
    errors st' = (errors st ++ new_errors)%list /\
    subsequence failed l /\
    Forall2 (fun entry resource =>
               exists c, reported high_risk sub [resource] entry c)
      new_errors failed.
Proof.
  induction l as [| resource l IH]; intros st st' H.
  - inversion H; subst. exists [], []. rewrite app_nil_r.
    repeat split; constructor.
  - rewrite for_each_cons in H.
    destruct (step high_risk w sub resource st) as [st1 [[] | e]] eqn:Hs;
      [| discriminate].
    apply step_Ok_entry in Hs as (e1 & He1 & Hcase).
    apply IH in H as (e2 & failed & He2 & S2 & F2).
    rewrite He2, He1, <- app_assoc.
    destruct Hcase as [-> | (entry & c & -> & R)].
    + exists e2, failed. split; [reflexivity |].
      split; [constructor; exact S2 | exact F2].
    + exists (entry :: e2), (resource :: failed).
      split; [reflexivity |]. split; [constructor; exact S2 |].
      constructor; [eauto | exact F2].
Qed.

(** X18. In a run that reaches the verdict, the entries of [errors] follow
    the order of the plan: they are, one for one, the blocks of some of the
    plan's records taken in their order, each a selected record whose
    request was answered with a failure. *)
Theorem failures_follow_the_plan (w : world) (sub : string) (plan : json)
    (records : list json) :
  resource_changes plan = Ok records ->
  uncaught (preflight w sub plan) = None ->
  exists failed,
    subsequence failed records /\
    Forall2 (fun entry resource =>
               exists c, reported HIGH_RISK_RESOURCES sub [resource] entry c)
      (failures (preflight w sub plan)) failed.
Proof.
  unfold preflight. intros Hp Hu. rewrite (run_unfold _ _ _ _ _ Hp) in *.
  destruct (for_each HIGH_RISK_RESOURCES w sub records initial)
    as [st [[] | e]] eqn:Hl; [| discriminate].
  apply for_each_in_plan_order in Hl as (new_errors & failed & He & S & F).
  cbn [initial errors app] in He. subst new_errors.
  exists failed. split; [exact S |].
  destruct (errors st); exact F.
Qed.

Lemma failures_follow_the_plan_witness :
  exists failed,
    subsequence failed [firewall_hub; lb_delete; bastion_without_location] /\
    Forall2 (fun entry resource =>
               exists c, reported HIGH_RISK_RESOURCES "sub" [resource] entry c)
      (failures (preflight (constant_world 400 sku_not_available) "sub"
                   (plan_of [firewall_hub; lb_delete; bastion_without_location])))
      failed.
Proof.
  refine (failures_follow_the_plan _ _ _ _ _ _); vm_compute; reflexivity.
Defined.

(** ** Answers and records of unusual shape *)

(** X19. An answer with a status other than 200 whose body is JSON but not
    an object (a list, a string, a number, [null]) is not recorded as a
    failure: reading its [error] raises [AttributeError], which leaves
    [errors] as it was and ends the loop. *)
Theorem body_that_is_no_object (w : world) (sub : string)
    (resource template body : json) (st : state) (token : string)
    (status_code : Z) :
  in_scope HIGH_RISK_RESOURCES resource = Ok true ->
  generate_arm_template resource = Ok template ->
  get_token w (List.length (calls st)) = Token token ->
  let req := validate_request token (uuid4 w (List.length (calls st)))
               sub "preflight-rg" template in
  post w (List.length (calls st)) req = Response status_code (Some body) ->
  (forall fields, body <> JObj fields) ->
  status_code <> 200%Z ->
  step HIGH_RISK_RESOURCES w sub resource st =
  ({| errors := errors st;
      calls := (calls st ++ [(req, Response status_code (Some body))])%list |},
   Raise AttributeError).
Proof.
  intros Hs Hg Hw req Hp Hbody Hne.
  destruct (step_selected HIGH_RISK_RESOURCES w sub resource template Hs Hg)
    as (address & res & location & mapping & zones & sku & _ & _ & _ & _ & _
        & _ & Hstep).
  rewrite Hstep, Hw. cbv zeta. fold req. rewrite Hp.
  unfold read_response. apply Z.eqb_neq in Hne. rewrite Hne.
  destruct body; try reflexivity. exfalso. eapply Hbody. reflexivity.
Qed.

Lemma body_that_is_no_object_witness :
  step HIGH_RISK_RESOURCES (constant_world 502 (JStr "Bad Gateway")) "sub"
    firewall_hub initial =
  ({| errors := [];
      calls :=
        [(validate_request "token" "00000000-0000-4000-8000-000000000000" "sub"
            "preflight-rg" firewall_hub_template,
          Response 502 (Some (JStr "Bad Gateway")))] |},
   Raise AttributeError).
Proof.
  refine (body_that_is_no_object (constant_world 502 (JStr "Bad Gateway")) "sub"
            firewall_hub firewall_hub_template (JStr "Bad Gateway") initial
            "token" 502%Z _ _ _ _ _ _);
    try (vm_compute; reflexivity); discriminate.
Defined.

Lemma chars_hashable (s : string) : forallb hashable (chars s) = true.
Proof. induction s; simpl; auto. Qed.

Lemma chars_miss_the_actions (s : string) :
  intersects (chars s) VALID_ACTIONS = false.
Proof.
  induction s as [| a s IH]; [reflexivity |].
  cbn [chars intersects existsb]. fold (intersects (chars s) VALID_ACTIONS).
  rewrite IH, orb_false_r.
  unfold py_in, VALID_ACTIONS. cbn [existsb eq_str].
  cbn [String.eqb].
  destruct (Ascii.eqb a "c"), (Ascii.eqb a "u"); reflexivity.
Qed.

(** X20. [actions] is turned into a set by iterating it, so a text is read
    character by character: a record whose [actions] is a string, be it
    ["create"] itself, is never selected, whatever its type and whatever the
    configuration. *)
Theorem text_actions_select_nothing (high_risk : list string)
    (resource change res_type : json) (s : string) :
  subscript resource "change" = Ok change ->
  get_default change "actions" (JArr []) = Ok (JStr s) ->
  subscript resource "type" = Ok res_type ->
  in_scope high_risk resource = Ok false /\
  forall w sub st, step high_risk w sub resource st = (st, Ok tt).
Proof.
  intros Hc Ha Ht.
  assert (in_scope high_risk resource = Ok false) as Hs.
  { unfold in_scope. rewrite Hc. cbn [bind]. rewrite Ha. cbn [bind].
    unfold py_set. cbn [iterate bind]. rewrite chars_hashable, Ht.
    cbn [bind]. rewrite chars_miss_the_actions, andb_false_r. reflexivity. }
  split; [exact Hs |].
  intros w sub st. apply step_not_selected, Hs.
Qed.

Lemma text_actions_select_nothing_witness :
  in_scope HIGH_RISK_RESOURCES
    (JObj [("address", JStr "azurerm_firewall.fw");
           ("type", JStr "azurerm_firewall");
           ("change", JObj [("actions", JStr "create");
                            ("after", JObj [])])]) = Ok false /\
  forall w sub st,
    step HIGH_RISK_RESOURCES w sub
      (JObj [("address", JStr "azurerm_firewall.fw");
             ("type", JStr "azurerm_firewall");
             ("change", JObj [("actions", JStr "create");
                              ("after", JObj [])])]) st = (st, Ok tt).
Proof.
  refine (text_actions_select_nothing HIGH_RISK_RESOURCES _
            (JObj [("actions", JStr "create"); ("after", JObj [])])
            (JStr "azurerm_firewall") "create" _ _ _);
    vm_compute; reflexivity.
Defined.
